(** * coder_agent: the response-interpretation pipelines

    A shallow embedding of the three agents of [coder_agent]

    - [navigator_agent.py]: [_extract_json_block], [plan_code_generation]
    - [search_agent.py]:    [find_function_exemplars]
    - [doc_agent.py]:       [generate_documentation]

    together with the properties their specification states about them.

    The external collaborators ([call_llm], [deep_search]) and the pieces of
    Python's standard library whose internals the agents do not depend on
    ([json.loads], [json.dumps], [str]) are section variables: every theorem
    holds whatever they compute.  Python exceptions are explicit: a fallible
    computation has type [result A]. *)

From Stdlib Require Import ZArith List Ascii String Lia.
From Stdlib Require Import Floats.SpecFloat.
From stdpp Require Import base option list numbers.

Open Scope string_scope.
Open Scope list_scope.
Open Scope Z_scope.
Set Warnings "-register-all".

(** ** Python values *)

Module Py.

(** A Python [str] is its sequence of Unicode code points. *)
Definition char := N.
Definition str := list char.

Definition py (s : string) : str := map N_of_ascii (list_ascii_of_string s).
Coercion py : string >-> str.

(** The data the agents handle is JSON-shaped: what [json.loads] produces
    and what the callers pass as code sections, exemplars and knowledge base.
    A [dict] keeps its insertion order; a lookup takes the first binding. *)
Inductive value : Type :=
| VNone
| VBool (b : bool)
| VInt (n : Z)
| VFloat (f : spec_float)
| VStr (s : str)
| VList (l : list value)
| VDict (d : list (str * value)).

Definition dict := list (str * value).

(** Exceptions (instances of Python's [Exception]). *)
Inductive exn : Type :=
| AttributeError
| IndexError
| TypeError
| JSONDecodeError
| Exc (name : string).

Inductive result (A : Type) : Type :=
| Ok (a : A)
| Raise (e : exn).
Arguments Ok {A} a.
Arguments Raise {A} e.

#[global] Instance result_ret : MRet result := fun A a => Ok a.
#[global] Instance result_bind : MBind result := fun A B f m =>
  match m with
  | Ok a => f a
  | Raise e => Raise e
  end.

(** [try: body  except Exception as exc: handler] *)
Definition try_except {A} (body : result A) (handler : exn -> result A) : result A :=
  match body with
  | Ok a => Ok a
  | Raise e => handler e
  end.

(** *** Dictionaries *)

Fixpoint dict_get (d : dict) (k : str) : option value :=
  match d with
  | [] => None
  | (k', v) :: d' => if decide (k' = k) then Some v else dict_get d' k
  end.

(** [d[k] = v]: an existing key keeps its position. *)
Fixpoint dict_set (d : dict) (k : str) (v : value) : dict :=
  match d with
  | [] => [(k, v)]
  | (k', v') :: d' =>
      if decide (k' = k) then (k, v) :: d' else (k', v') :: dict_set d' k v
  end.

Definition has_key (d : dict) (k : str) : bool :=
  match dict_get d k with Some _ => true | None => false end.

(** [obj.get(key, default)]: only a mapping has the method. *)
Definition get_method (obj : value) (key : str) (default : value) : result value :=
  match obj with
  | VDict d => Ok (match dict_get d key with Some v => v | None => default end)
  | _ => Raise AttributeError
  end.

Definition is_dict (v : value) : bool :=
  match v with VDict _ => true | _ => false end.

Definition is_list (v : value) : bool :=
  match v with VList _ => true | _ => false end.

(** [isinstance(v, int)]: [bool] is a subclass of [int]. *)
Definition isinstance_int (v : value) : bool :=
  match v with VInt _ | VBool _ => true | _ => false end.

(** The integer an [int] instance stands for in arithmetic, comparison and
    indexing ([True] is 1, [False] is 0). *)
Definition int_value (v : value) : Z :=
  match v with
  | VInt n => n
  | VBool true => 1
  | _ => 0
  end.

(** [l[i]] for an integer [i]: negative indices count from the end. *)
Definition list_index {A} (l : list A) (i : Z) : result A :=
  let n := Z.of_nat (length l) in
  let j := if i <? 0 then i + n else i in
  if (0 <=? j) && (j <? n) then
    match l !! Z.to_nat j with
    | Some x => Ok x
    | None => Raise IndexError
    end
  else Raise IndexError.

(** *** Strings *)

(** [str.isspace] on one code point. *)
Definition is_space (c : char) : bool :=
  ((9 <=? c) && (c <=? 13) || (28 <=? c) && (c <=? 32)
   || (c =? 133) || (c =? 160) || (c =? 5760)
   || (8192 <=? c) && (c <=? 8202)
   || (c =? 8232) || (c =? 8233) || (c =? 8239) || (c =? 8287)
   || (c =? 12288))%N.

Fixpoint lstrip (s : str) : str :=
  match s with
  | [] => []
  | c :: s' => if is_space c then lstrip s' else s
  end.

Definition rstrip (s : str) : str := rev (lstrip (rev s)).

(** [s.strip()] *)
Definition strip (s : str) : str := rstrip (lstrip s).

(** [s.startswith(p)], [s.endswith(p)] *)
Definition startswith (s p : str) : bool := bool_decide (p `prefix_of` s).
Definition endswith (s p : str) : bool := bool_decide (p `suffix_of` s).

(** [s.find(p)]: the lowest index where [p] occurs, or -1. *)
Fixpoint find (s p : str) : Z :=
  if startswith s p then 0
  else match s with
       | [] => -1
       | _ :: s' => let r := find s' p in if r =? -1 then -1 else r + 1
       end.

(** [s.rfind(p)]: the highest index where [p] occurs, or -1. *)
Fixpoint rfind (s p : str) : Z :=
  match s with
  | [] => if startswith [] p then 0 else -1
  | _ :: s' =>
      let r := rfind s' p in
      if r =? -1 then (if startswith s p then 0 else -1) else r + 1
  end.

(** A slice bound, as Python clamps it. *)
Definition bound (n : nat) (i : Z) : nat :=
  let len := Z.of_nat n in
  Z.to_nat (if i <? 0 then Z.max 0 (i + len) else Z.min i len).

(** [s[lo:hi]], [s[lo:]], [s[:hi]] *)
Definition slice {A} (s : list A) (lo hi : Z) : list A :=
  let a := bound (length s) lo in
  let b := bound (length s) hi in
  take (b - a)%nat (drop a s).
Definition slice_from {A} (s : list A) (lo : Z) : list A :=
  drop (bound (length s) lo) s.
Definition slice_to {A} (s : list A) (hi : Z) : list A :=
  take (bound (length s) hi) s.

(** [sep.join(parts)] *)
Fixpoint join (sep : str) (parts : list str) : str :=
  match parts with
  | [] => []
  | [p] => p
  | p :: ps => p ++ sep ++ join sep ps
  end.

(** A double-quoted piece of text inside a literal. *)
Definition quote : str := [34%N].
Definition quoted (s : str) : str := quote ++ s ++ quote.

(** Truthiness: [if x], [not x], [x or y], [x and y]. *)
Definition nonempty {A} (l : list A) : bool :=
  match l with [] => false | _ => true end.

Definition truthy (v : value) : bool :=
  match v with
  | VNone => false
  | VBool b => b
  | VInt n => negb (n =? 0)
  | VFloat f => match f with S754_zero _ => false | _ => true end
  | VStr s => nonempty s
  | VList l => nonempty l
  | VDict d => nonempty d
  end.

(** [while cond(s): s = body(s)], run for at most [fuel] iterations. *)
Fixpoint while {S} (fuel : nat) (cond : S -> bool) (body : S -> S) (s : S) : S :=
  match fuel with
  | O => s
  | S fuel' => if cond s then while fuel' cond body (body s) else s
  end.

End Py.

(** ** navigator_agent.py *)

Module Navigator.
Import Py.

Definition fence : str := "```".
Definition backtick : str := "`".
Definition newline : str := String "010" EmptyString.
Definition lbrace : str := "{".
Definition rbrace : str := "}".

(** [_extract_json_block(raw)] *)
Definition _extract_json_block (raw : str) : str :=
  if negb (nonempty raw) then []
  else
    let text := strip raw in
    let text :=
      if startswith text fence then
        let first_newline := find text newline in
        let text :=
          if negb (first_newline =? -1) then slice_from text (first_newline + 1)
          else text in
        let text :=
          while (length text) (fun t => endswith t backtick)
                (fun t => slice_to t (-1)) text in
        strip text
      else text in
    let start := find text lbrace in
    let end_ := rfind text rbrace in
    if negb (start =? -1) && negb (end_ =? -1) && (end_ >? start)
    then slice text start (end_ + 1)
    else text.

Section Planner.

(** The text-generation collaborator: it returns a string (or [None]), or
    raises. *)
Variable call_llm : str -> result (option str).
(** [json.loads] *)
Variable json_loads : str -> result value.

Definition planning_prompt (requirements project_type : str) : str :=
  py "You are a senior software architect helping another agent generate code."
  ++ newline
  ++ py "Given a user requirement and a project type, break the work into a small set "
  ++ py "of concrete code components and KB search hints." ++ newline ++ newline
  ++ py "Return JSON with this shape ONLY (no explanations, no markdown, no extra text):"
  ++ newline
  ++ py "{" ++ newline
  ++ py "  " ++ quoted "components" ++ py ": [" ++ newline
  ++ py "    {" ++ quoted "name" ++ py ": " ++ quoted "..." ++ py ", "
  ++ quoted "description" ++ py ": " ++ quoted "..." ++ py ", "
  ++ quoted "priority" ++ py ": 1}" ++ newline
  ++ py "  ]," ++ newline
  ++ py "  " ++ quoted "search_queries" ++ py ": [" ++ quoted "..." ++ py ", "
  ++ quoted "..." ++ py "]" ++ newline
  ++ py "}" ++ newline ++ newline
  ++ py "PROJECT_TYPE: " ++ project_type ++ newline
  ++ py "REQUIREMENTS:" ++ newline ++ requirements ++ newline.

(** The default safe plan. *)
Definition default_plan (requirements : str) : dict :=
  [ (py "components",
      VList [ VDict [ (py "name", VStr "main_module");
                      (py "description", VStr requirements);
                      (py "priority", VInt 1) ] ]);
    (py "search_queries", VList [ VStr requirements ]) ].

(** One statement of the guarded block: when it raises, the handler logs and
    control reaches [return plan] with the plan as it is at that point. *)
Definition guarded {A} (plan : dict) (m : result A) (k : A -> result dict) : result dict :=
  match m with
  | Ok a => k a
  | Raise exc => Ok plan
  end.

(** [plan_code_generation(requirements, project_type)] *)
Definition plan_code_generation (requirements project_type : str) : result dict :=
  raw ← try_except
          (r ← call_llm (planning_prompt requirements project_type);
           mret (match r with Some s => if nonempty s then s else [] | None => [] end))
          (fun exc => mret []);
  let plan := default_plan requirements in
  if negb (nonempty raw) then mret plan
  else
    let json_block := _extract_json_block raw in
    guarded plan (json_loads json_block) (fun parsed =>
    if is_dict parsed then
      guarded plan (get_method parsed "components" VNone) (fun components =>
      let plan :=
        if is_list components && truthy components
        then dict_set plan "components" components else plan in
      guarded plan (get_method parsed "search_queries" VNone) (fun search_queries =>
      let plan :=
        if is_list search_queries && truthy search_queries
        then dict_set plan "search_queries" search_queries else plan in
      mret plan))
    else mret plan).

End Planner.
End Navigator.

(** ** search_agent.py *)

Module Search.
Import Py.

Section Selector.

(** The ranking collaborator: it returns a result of any shape, or raises. *)
Variable deep_search : str -> list value -> result value.

(** [_build_exemplar(section_idx)], closed over [code_sections]. *)
Definition _build_exemplar (code_sections : list value) (section_idx : value)
  : result value :=
  entry ← list_index code_sections (int_value section_idx);
  artifact_name ← get_method entry "artifact_name" VNone;
  document_name ← get_method entry "document_name" VNone;
  section_name ← get_method entry "section_name" VNone;
  description ← get_method entry "description" VNone;
  mret (VDict [ (py "index", section_idx);
                (py "artifact_name", artifact_name);
                (py "document_name", document_name);
                (py "section_name", section_name);
                (py "description", description) ]).

Definition offsets : list Z := [-1; 1; -2; 2].

(** [for offset in (-1, 1, -2, 2): ...], with its [break]. *)
Fixpoint add_neighbors (code_sections : list value) (max_exemplars : Z) (idx : Z)
    (todo : list Z) (exemplars : list value) : result (list value) :=
  match todo with
  | [] => mret exemplars
  | offset :: todo' =>
      if Z.of_nat (length exemplars) >=? max_exemplars then mret exemplars
      else
        let neighbor := idx + offset in
        if (0 <=? neighbor) && (neighbor <? Z.of_nat (length code_sections)) then
          ex ← _build_exemplar code_sections (VInt neighbor);
          add_neighbors code_sections max_exemplars idx todo' (exemplars ++ [ex])
        else add_neighbors code_sections max_exemplars idx todo' exemplars
  end.

(** The index the selector settles on, given the collaborator's result. *)
Definition chosen_index (code_sections : list value) (result : value)
  : Py.result value :=
  if negb (is_dict result) then mret (VInt 0)
  else
    idx ← get_method result "chosen_section_index" VNone;
    if match idx with VNone => true | _ => false end
       || negb (isinstance_int idx)
       || negb ((0 <=? int_value idx)
                && (int_value idx <? Z.of_nat (length code_sections)))
    then mret (VInt 0)
    else mret idx.

(** [find_function_exemplars(requirement, code_sections, max_exemplars)] *)
Definition find_function_exemplars (requirement : str) (code_sections : list value)
    (max_exemplars : Z) : result (list value) :=
  if negb (nonempty code_sections) then mret []
  else
    result ← deep_search requirement code_sections;
    idx ← chosen_index code_sections result;
    let exemplars := [] in
    primary ← _build_exemplar code_sections idx;
    let exemplars := exemplars ++ [primary] in
    add_neighbors code_sections max_exemplars (int_value idx) offsets exemplars.

End Selector.
End Search.

(** ** doc_agent.py *)

Module Doc.
Import Py.

Section Documenter.

Variable call_llm : str -> result (option str).
Variable json_loads : str -> result value.
(** [json.dumps(v, indent=2)] *)
Variable json_dumps : value -> result str.
(** [str(v)], which is also how an f-string renders [v]. *)
Variable py_str : value -> str.

Definition empty_bundle : dict :=
  [ (py "readme", VStr "");
    (py "api_docs", VStr "");
    (py "inline_docs", VStr "");
    (py "usage_examples", VStr "");
    (py "installation_instructions", VStr "") ].

Definition render_exemplar (ex : value) : result str :=
  section_name ← get_method ex "section_name" (VStr "");
  description ← get_method ex "description" (VStr "");
  mret (py "# Exemplar: " ++ py_str section_name ++ Navigator.newline
        ++ py_str description ++ Navigator.newline).

Definition build_prompt (requirement project_type code : str)
    (exemplars : option (list value)) (tribal_kb : option dict) : result str :=
  let exemplars := default [] exemplars in
  let tribal_kb := default [] tribal_kb in
  exemplars_text ←
    (if nonempty exemplars then
       rendered ← mapM render_exemplar (slice_to exemplars 3);
       mret (join Navigator.newline rendered)
     else mret []);
  tribal_summary ←
    (if nonempty tribal_kb then
       try_except (dumped ← json_dumps (VDict tribal_kb); mret (slice_to dumped 2000))
                  (fun exc => mret (slice_to (py_str (VDict tribal_kb)) 2000))
     else mret []);
  let prompt_parts : list str :=
    [ py "You are a technical writer. Generate comprehensive documentation.";
      py "";
      py "PROJECT_TYPE: " ++ project_type;
      py "";
      py "REQUIREMENT:";
      requirement ] in
  let prompt_parts :=
    if nonempty code
    then prompt_parts ++ [ py ""; py "CODE TO DOCUMENT:"; code ]
    else prompt_parts in
  let prompt_parts :=
    if nonempty exemplars_text
    then prompt_parts ++ [ py ""; py "DOCUMENTATION EXEMPLARS:"; exemplars_text ]
    else prompt_parts in
  let prompt_parts :=
    if nonempty tribal_summary
    then prompt_parts ++ [ py ""; py "TRIBAL KNOWLEDGE:"; tribal_summary ]
    else prompt_parts in
  let prompt_parts :=
    prompt_parts ++
    [ py "";
      py "Generate documentation including:";
      py "- README with setup and usage";
      py "- API documentation";
      py "- Inline code comments";
      py "- Usage examples";
      py "";
      py "Return JSON with this shape ONLY:";
      py "{";
      py "  " ++ quoted "readme" ++ py ": " ++ quoted "..." ++ py ",";
      py "  " ++ quoted "api_docs" ++ py ": " ++ quoted "..." ++ py ",";
      py "  " ++ quoted "inline_docs" ++ py ": " ++ quoted "..." ++ py ",";
      py "  " ++ quoted "usage_examples" ++ py ": " ++ quoted "..." ++ py ",";
      py "  " ++ quoted "installation_instructions" ++ py ": " ++ quoted "...";
      py "}" ] in
  mret (join Navigator.newline prompt_parts).

(** The guarded block after the call: [Some d] is its [return parsed]. *)
Definition parse_response (raw : str) : result (option dict) :=
  try_except
    (let start := find raw Navigator.lbrace in
     let end_ := rfind raw Navigator.rbrace in
     if negb (start =? -1) && negb (end_ =? -1) then
       let json_block := slice raw start (end_ + 1) in
       parsed ← json_loads json_block;
       match parsed with
       | VDict d => mret (Some d)
       | _ => mret None
       end
     else mret None)
    (fun exc => mret None).

(** [generate_documentation(requirement, project_type, code, exemplars, tribal_kb)] *)
Definition generate_documentation (requirement project_type code : str)
    (exemplars : option (list value)) (tribal_kb : option dict) : result dict :=
  prompt ← build_prompt requirement project_type code exemplars tribal_kb;
  match call_llm prompt with
  | Raise exc => mret empty_bundle
  | Ok r =>
      let raw := match r with Some s => s | None => [] end in
      returned ← parse_response raw;
      match returned with
      | Some parsed => mret parsed
      | None => mret empty_bundle
      end
  end.

End Documenter.
End Doc.

(** ** A reference [json.loads]

    The pipelines are verified for an arbitrary [json_loads].  To run them on
    concrete responses this module gives a decoder for JSON texts without
    string escapes and without fractional or exponent parts in numbers, where
    it computes what Python's [json.loads] computes; it rejects every other
    text. *)

Module Json.
Import Py.

Definition is_ws (c : char) : bool :=
  ((c =? 32) || (c =? 9) || (c =? 10) || (c =? 13))%N.

Fixpoint skip_ws (s : str) : str :=
  match s with
  | c :: s' => if is_ws c then skip_ws s' else s
  | [] => []
  end.

(** The characters of a string literal, after its opening quote. *)
Fixpoint scan_string (s acc : str) : option (str * str) :=
  match s with
  | [] => None
  | c :: s' =>
      if (c =? 34)%N then Some (rev acc, s')
      else if ((c =? 92) || (c <? 32))%N then None
      else scan_string s' (c :: acc)
  end.

Definition is_digit (c : char) : bool := ((48 <=? c) && (c <=? 57))%N.

Fixpoint scan_digits (s : str) (acc : Z) : Z * str :=
  match s with
  | c :: s' =>
      if is_digit c then scan_digits s' (10 * acc + (Z.of_N c - 48)) else (acc, s)
  | [] => (acc, [])
  end.

(** An integer literal: an optional minus sign, then a single zero or a
    digit string without a leading zero, not followed by a fraction or an
    exponent. *)
Definition scan_int (s : str) : option (Z * str) :=
  let '(neg, s1) :=
    match s with
    | c :: s' => if (c =? 45)%N then (true, s') else (false, s)
    | [] => (false, s)
    end in
  match s1 with
  | c :: s2 =>
      if is_digit c then
        let '(n, rest) :=
          if (c =? 48)%N then (0, s2) else scan_digits s1 0 in
        match rest with
        | d :: _ =>
            if ((d =? 46) || (d =? 101) || (d =? 69))%N then None
            else Some (if neg then - n else n, rest)
        | [] => Some (if neg then - n else n, rest)
        end
      else None
  | [] => None
  end.

Definition literal (s : str) (word : str) (v : value) : option (value * str) :=
  if startswith s word then Some (v, drop (length word) s) else None.

Fixpoint parse_value (fuel : nat) (s : str) : option (value * str) :=
  match fuel with
  | O => None
  | S fuel' =>
      match s with
      | [] => None
      | c :: s' =>
          if (c =? 123)%N then
            match skip_ws s' with
            | c1 :: s1 =>
                if (c1 =? 125)%N then Some (VDict [], s1)
                else parse_members fuel' (c1 :: s1) []
            | [] => None
            end
          else if (c =? 91)%N then
            match skip_ws s' with
            | c1 :: s1 =>
                if (c1 =? 93)%N then Some (VList [], s1)
                else parse_elements fuel' (c1 :: s1) []
            | [] => None
            end
          else if (c =? 34)%N then
            match scan_string s' [] with
            | Some (str_, rest) => Some (VStr str_, rest)
            | None => None
            end
          else if startswith s "null" then literal s "null" VNone
          else if startswith s "true" then literal s "true" (VBool true)
          else if startswith s "false" then literal s "false" (VBool false)
          else if startswith s "NaN" then literal s "NaN" (VFloat S754_nan)
          else if startswith s "Infinity"
               then literal s "Infinity" (VFloat (S754_infinity false))
          else if startswith s "-Infinity"
               then literal s "-Infinity" (VFloat (S754_infinity true))
          else match scan_int s with
               | Some (n, rest) => Some (VInt n, rest)
               | None => None
               end
      end
  end

(** The pairs of an object, from a key on; a repeated key keeps its last
    value. *)
with parse_members (fuel : nat) (s : str) (acc : dict) : option (value * str) :=
  match fuel with
  | O => None
  | S fuel' =>
      match s with
      | c :: s' =>
          if (c =? 34)%N then
            match scan_string s' [] with
            | Some (key, rest) =>
                match skip_ws rest with
                | c1 :: s1 =>
                    if (c1 =? 58)%N then
                      match parse_value fuel' (skip_ws s1) with
                      | Some (v, rest1) =>
                          let acc := dict_set acc key v in
                          match skip_ws rest1 with
                          | c2 :: s2 =>
                              if (c2 =? 125)%N then Some (VDict acc, s2)
                              else if (c2 =? 44)%N
                                   then parse_members fuel' (skip_ws s2) acc
                                   else None
                          | [] => None
                          end
                      | None => None
                      end
                    else None
                | [] => None
                end
            | None => None
            end
          else None
      | [] => None
      end
  end

with parse_elements (fuel : nat) (s : str) (acc : list value) : option (value * str) :=
  match fuel with
  | O => None
  | S fuel' =>
      match parse_value fuel' s with
      | Some (v, rest) =>
          match skip_ws rest with
          | c :: s1 =>
              if (c =? 93)%N then Some (VList (acc ++ [v]), s1)
              else if (c =? 44)%N
                   then parse_elements fuel' (skip_ws s1) (acc ++ [v])
                   else None
          | [] => None
          end
      | None => None
      end
  end.

Definition json_loads (s : str) : result value :=
  match parse_value (S (length s)) (skip_ws s) with
  | Some (v, rest) =>
      match skip_ws rest with
      | [] => Ok v
      | _ => Raise JSONDecodeError
      end
  | None => Raise JSONDecodeError
  end.

End Json.


(** * Specification vocabulary

    The notions the specification is phrased in, next to the code they are
    about. *)

Module Spec.
Import Py Navigator.

(** ** Plans *)

(** The component of the default plan. *)
Definition main_module (requirements : str) : value :=
  VDict [ (py "name", VStr "main_module");
          (py "description", VStr requirements);
          (py "priority", VInt 1) ].

(** What a list-typed field of the response contributes: itself when it is
    a non-empty list, the default otherwise. *)
Definition adopted (fallback : list value) (field : option value) : list value :=
  match field with
  | Some (VList (x :: xs)) => x :: xs
  | _ => fallback
  end.

(** The response reached the validator: the collaborator answered [raw],
    and its candidate block parsed to the mapping [d]. *)
Definition parsed_mapping (call_llm : str -> result (option str))
    (json_loads : str -> result value)
    (requirements project_type raw : str) (d : dict) : Prop :=
  call_llm (planning_prompt requirements project_type) = Ok (Some raw)
  /\ raw <> []
  /\ json_loads (_extract_json_block raw) = Ok (VDict d).


(** A Component record: a mapping with a string [name], a string
    [description] and an integer [priority]. *)
Definition is_component (v : value) : bool :=
  match v with
  | VDict d =>
      match dict_get d "name", dict_get d "description", dict_get d "priority" with
      | Some (VStr _), Some (VStr _), Some (VInt _) => true
      | _, _, _ => false
      end
  | _ => false
  end.

Definition is_string (v : value) : bool :=
  match v with VStr _ => true | _ => false end.

(** A structurally valid Plan. *)
Definition valid_plan (p : dict) : bool :=
  match dict_get p "components", dict_get p "search_queries" with
  | Some (VList (c :: cs)), Some (VList (q :: qs)) =>
      forallb is_component (c :: cs) && forallb is_string (q :: qs)
  | _, _ => false
  end.

(** ** Payload extraction *)

Definition all_space (s : str) : Prop := Forall (fun c => is_space c = true) s.

(** [t] is [s] with the whitespace around it removed. *)
Definition trimmed (s t : str) : Prop :=
  exists l r, s = l ++ t ++ r /\ all_space l /\ all_space r
    /\ (forall c t', t = c :: t' -> is_space c = false)
    /\ (forall c t', t = t' ++ [c] -> is_space c = false).

Definition newline_char : char := 10%N.
Definition backtick_char : char := 96%N.
Definition lbrace_char : char := 123%N.
Definition rbrace_char : char := 125%N.

(** [rest] is [t] after its first line, when a line break ends that line;
    a text of a single line is kept whole. *)
Definition after_first_line (t rest : str) : Prop :=
  (exists line, t = line ++ newline_char :: rest /\ (newline_char ∉ line))
  \/ ((newline_char ∉ t) /\ rest = t).

(** [body] is [s] without the backticks it ends in. *)
Definition without_trailing_backticks (s body : str) : Prop :=
  exists ticks, s = body ++ ticks
    /\ Forall (fun c => c = backtick_char) ticks
    /\ (forall b, body <> b ++ [backtick_char]).

(** [u] is the trimmed text [t] with its fence removed, if it has one. *)
Definition unfenced (t u : str) : Prop :=
  (fence `prefix_of` t
   /\ exists rest body,
       after_first_line t rest
       /\ without_trailing_backticks rest body
       /\ trimmed body u)
  \/ (~ (fence `prefix_of` t) /\ u = t).

(** [c] occurs in [s] at [i], and nowhere before (after) it. *)
Definition first_at (c : char) (s : str) (i : nat) : Prop :=
  s !! i = Some c /\ forall j, (j < i)%nat -> s !! j <> Some c.
Definition last_at (c : char) (s : str) (i : nat) : Prop :=
  s !! i = Some c /\ forall j, (i < j)%nat -> s !! j <> Some c.

(** [out] is the candidate block of [u]: from the first [{] to the last [}]
    inclusive when the one precedes the other, and [u] itself otherwise. *)
Definition candidate_block (u out : str) : Prop :=
  (exists i j, first_at lbrace_char u i /\ last_at rbrace_char u j
               /\ (i < j)%nat /\ out = take (j - i + 1)%nat (drop i u))
  \/ ((forall i j, first_at lbrace_char u i -> last_at rbrace_char u j ->
                   ~ (i < j)%nat)
      /\ out = u).

(** The extractor as the specification words it: the first line of a fenced
    text goes, whatever follows it. *)
Fixpoint drop_first_line (s : str) : str :=
  match s with
  | [] => []
  | c :: s' => if decide (c = newline_char) then s' else drop_first_line s'
  end.

Definition strip_trailing_fences (s : str) : str :=
  while (length s) (fun t => endswith t fence) (fun t => slice_to t (-3)) s.

Definition extract_as_specified (raw : str) : str :=
  if negb (nonempty raw) then []
  else
    let text :=
      if startswith raw fence
      then strip (strip_trailing_fences (drop_first_line raw))
      else strip raw in
    let start := find text lbrace in
    let end_ := rfind text rbrace in
    if negb (start =? -1) && negb (end_ =? -1) && (end_ >? start)
    then slice text start (end_ + 1)
    else text.

(** ** Exemplars *)

Definition field (d : dict) (k : str) : value := default VNone (dict_get d k).

(** The exemplar of a code section [d] found at [index]: the section,
    annotated with its source index. *)
Definition exemplar_of (index : value) (d : dict) : value :=
  VDict [ (py "index", index);
          (py "artifact_name", field d "artifact_name");
          (py "document_name", field d "document_name");
          (py "section_name", field d "section_name");
          (py "description", field d "description") ].

(** [ex] is the exemplar of the section at source index [k]. *)
Definition exemplar_at (code_sections : list value) (k : Z) (ex : value) : Prop :=
  exists d, code_sections !! Z.to_nat k = Some (VDict d)
            /\ ex = exemplar_of (VInt k) d.

Definition in_bounds (n : nat) (k : Z) : bool := (0 <=? k) && (k <? Z.of_nat n).

(** All code sections are mappings, as their type says. *)
Definition sections_typed (code_sections : list value) : Prop :=
  Forall (fun entry => is_dict entry = true) code_sections.

(** [ex] has the shape of an exemplar: one of the code sections, annotated
    with an index. *)
Definition is_exemplar (code_sections : list value) (ex : value) : Prop :=
  exists index d, VDict d ∈ code_sections /\ ex = exemplar_of index d.

(** The exemplars handed to the documentation pipeline are mappings, as
    their type says, as far as they are rendered (the first three). *)
Definition exemplars_typed (exemplars : option (list value)) : Prop :=
  Forall (fun ex => is_dict ex = true) (slice_to (default [] exemplars) 3).

(** The ranking result gives no usable index: it is no mapping, or it lacks
    [chosen_section_index], or that value is no integer, or it lies outside
    [0, n). *)
Definition no_usable_index (n : nat) (res : value) : Prop :=
  is_dict res = false
  \/ exists d, res = VDict d
       /\ (dict_get d "chosen_section_index" = None
           \/ exists v, dict_get d "chosen_section_index" = Some v
                 /\ (isinstance_int v = false
                     \/ int_value v < 0
                     \/ Z.of_nat n <= int_value v)).

(** ** Documentation bundles *)

Definition bundle_keys : list str :=
  [ py "readme"; py "api_docs"; py "inline_docs"; py "usage_examples";
    py "installation_instructions" ].

(** The bundle is fully populated: none of the five keys is missing. *)
Definition full_bundle (b : dict) : bool := forallb (has_key b) bundle_keys.

(** The response to [prompt] carries a mapping: the collaborator answered
    [raw], a first [{] and a last [}] exist in it, and the text from the one
    to the other parsed to the mapping [d]. *)
Definition response_mapping (call_llm : str -> result (option str))
    (json_loads : str -> result value) (prompt raw : str) (d : dict) : Prop :=
  (call_llm prompt = Ok (Some raw) \/ (call_llm prompt = Ok None /\ raw = []))
  /\ find raw lbrace <> -1
  /\ rfind raw rbrace <> -1
  /\ json_loads (slice raw (find raw lbrace) (rfind raw rbrace + 1)) = Ok (VDict d).

(** ** The stages of the extractor

    [_extract_json_block] is [block_of] after [unfence] after [strip]; the
    two stages are spelled out here as the code has them. *)

(** The fence handling, on the trimmed text. *)
Definition unfence (text : str) : str :=
  if startswith text fence then
    let first_newline := find text newline in
    let text :=
      if negb (first_newline =? -1) then slice_from text (first_newline + 1)
      else text in
    let text :=
      while (length text) (fun t => endswith t backtick)
            (fun t => slice_to t (-1)) text in
    strip text
  else text.

(** The final selection of the candidate block. *)
Definition block_of (text : str) : str :=
  let start := find text lbrace in
  let end_ := rfind text rbrace in
  if negb (start =? -1) && negb (end_ =? -1) && (end_ >? start)
  then slice text start (end_ + 1)
  else text.

(** [a] is a contiguous part of [b]. *)
Definition part_of (a b : str) : Prop := exists pre post, b = pre ++ a ++ post.

(** [s] neither begins nor ends with whitespace. *)
Definition no_outer_space (s : str) : Prop :=
  (forall c t, s = c :: t -> is_space c = false)
  /\ (forall c t, s = t ++ [c] -> is_space c = false).

End Spec.

(** * Concrete collaborators and inputs *)

Module Examples.
Import Py.

(** A text-generation collaborator that answers [raw] to every prompt, and
    one that is unreachable. *)
Definition llm_says (raw : str) : str -> result (option str) :=
  fun prompt => Ok (Some raw).
Definition llm_down : str -> result (option str) :=
  fun prompt => Raise (Exc "ConnectionError").

(** A ranking collaborator that answers [res] to every query. *)
Definition rank_says (res : value) : str -> list value -> result value :=
  fun requirement code_sections => Ok res.

(** Stand-ins for [json.dumps] and [str] on runs that do not reach them. *)
Definition no_dumps : value -> result str := fun v => Raise TypeError.
Definition no_str : value -> str := fun v => [].

(** [{"components": [1]}] *)
Definition unchecked_components : str :=
  py "{" ++ quoted "components" ++ py ": [1]}".

(** [{"components": [{"name": "cli", "description": "entry point",
    "priority": 2}], "search_queries": []}] *)
Definition components_only : str :=
  py "{" ++ quoted "components" ++ py ": [{" ++ quoted "name" ++ py ": "
  ++ quoted "cli" ++ py ", " ++ quoted "description" ++ py ": "
  ++ quoted "entry point" ++ py ", " ++ quoted "priority" ++ py ": 2}], "
  ++ quoted "search_queries" ++ py ": []}".

(** A fenced response of a single line. *)
Definition one_line_fence : str := "```{}```".

(** [{"chosen_section_index": 2}] *)
Definition chooses (i : Z) : value := VDict [ (py "chosen_section_index", VInt i) ].

(** [{"components": [{"name": "cli", "description": "entry point",
    "priority": 2}], "search_queries": ["argparse"], "notes": 7}] *)
Definition full_plan : str :=
  py "{" ++ quoted "components" ++ py ": [{" ++ quoted "name" ++ py ": "
  ++ quoted "cli" ++ py ", " ++ quoted "description" ++ py ": "
  ++ quoted "entry point" ++ py ", " ++ quoted "priority" ++ py ": 2}], "
  ++ quoted "search_queries" ++ py ": [" ++ quoted "argparse" ++ py "], "
  ++ quoted "notes" ++ py ": 7}".

(** [{"readme": "# Tool"}] *)
Definition readme_only : str :=
  py "{" ++ quoted "readme" ++ py ": " ++ quoted "# Tool" ++ py "}".

(** A code section, a list of five of them, and the exemplar of the first. *)
Definition section (name : str) : value :=
  VDict [ (py "artifact_name", VStr "repo");
          (py "document_name", VStr "main.py");
          (py "section_name", VStr name);
          (py "description", VStr "a function") ].
Definition five_sections : list value :=
  [ section "a"; section "b"; section "c"; section "d"; section "e" ].
Definition first_exemplar : value :=
  VDict [ (py "index", VInt 0);
          (py "artifact_name", VStr "repo");
          (py "document_name", VStr "main.py");
          (py "section_name", VStr "a");
          (py "description", VStr "a function") ].

End Examples.

(** * Properties *)

Import Py Spec.

(** ** The payload extractor *)

Section StringFacts.

Lemma lstrip_spec s :
  exists l, s = l ++ lstrip s /\ all_space l
            /\ (forall c t', lstrip s = c :: t' -> is_space c = false).
Proof.
  induction s as [|c s (l & Hs & Hl & Hhead)]; simpl.
  - exists []. repeat split; [constructor | discriminate].
  - destruct (is_space c) eqn:Hc.
    + exists (c :: l). split; [simpl; congruence|].
      split; [by constructor | done].
    + exists []. repeat split; [constructor|]. by intros ? ? [= <- _].
Qed.

Lemma lstrip_snoc s c : is_space c = false -> lstrip (s ++ [c]) = lstrip s ++ [c].
Proof.
  intros Hc. induction s as [|x s IH]; simpl; [by rewrite Hc|].
  by destruct (is_space x).
Qed.

Lemma rstrip_spec s :
  exists r, s = rstrip s ++ r /\ all_space r
            /\ (forall c t', rstrip s = t' ++ [c] -> is_space c = false).
Proof.
  unfold rstrip. destruct (lstrip_spec (rev s)) as (l & Hs & Hl & Hhead).
  exists (rev l). split; [|split].
  - rewrite <- rev_app_distr, <- Hs. by rewrite rev_involutive.
  - unfold all_space. by apply Forall_rev.
  - intros c t' Hlast. apply (Hhead c (rev t')).
    rewrite <- (rev_involutive (lstrip (rev s))), Hlast, rev_app_distr. done.
Qed.

Lemma rstrip_cons c s : is_space c = false -> rstrip (c :: s) = c :: rstrip s.
Proof.
  intros Hc. unfold rstrip. simpl. rewrite lstrip_snoc by done.
  by rewrite rev_app_distr.
Qed.

Lemma strip_trimmed s : trimmed s (strip s).
Proof.
  unfold strip. destruct (lstrip_spec s) as (l & Hs & Hl & Hhead).
  destruct (rstrip_spec (lstrip s)) as (r & Hr & Hsp & Hlast).
  exists l, r. split; [by rewrite <- Hr|]. split; [done|]. split; [done|].
  split; [|done]. intros c t' Ht.
  destruct (lstrip s) as [|c0 s0] eqn:Hl0; [discriminate|].
  rewrite rstrip_cons in Ht by eauto. injection Ht as <- _. eauto.
Qed.

Lemma startswith_char s c :
  startswith s [c] = match s with x :: _ => bool_decide (x = c) | [] => false end.
Proof.
  unfold startswith. destruct s as [|x s].
  - apply bool_decide_eq_false. intros [k Hk]. discriminate.
  - apply bool_decide_ext. split.
    + intros [k Hk]. by injection Hk.
    + intros ->. by exists s.
Qed.

Lemma endswith_char s c :
  endswith s [c] = true <-> exists b, s = b ++ [c].
Proof. unfold endswith. rewrite bool_decide_eq_true. done. Qed.

Lemma first_at_unique c s i j : first_at c s i -> first_at c s j -> i = j.
Proof.
  intros [Hi Hbefore] [Hj Hbefore'].
  destruct (lt_eq_lt_dec i j) as [[H | H] | H]; [|done|].
  - by destruct (Hbefore' i H).
  - by destruct (Hbefore j H).
Qed.

Lemma last_at_unique c s i j : last_at c s i -> last_at c s j -> i = j.
Proof.
  intros [Hi Hafter] [Hj Hafter'].
  destruct (lt_eq_lt_dec i j) as [[H | H] | H]; [|done|].
  - by destruct (Hafter j H).
  - by destruct (Hafter' i H).
Qed.

Lemma find_nil c : find [] [c] = -1.
Proof. unfold find. by rewrite startswith_char. Qed.

Lemma find_cons x s c :
  find (x :: s) [c]
  = if bool_decide (x = c) then 0
    else if find s [c] =? -1 then -1 else find s [c] + 1.
Proof. cbn [find]. by rewrite startswith_char. Qed.

Lemma rfind_nil c : rfind [] [c] = -1.
Proof. unfold rfind. by rewrite startswith_char. Qed.

Lemma rfind_cons x s c :
  rfind (x :: s) [c]
  = if rfind s [c] =? -1 then (if bool_decide (x = c) then 0 else -1)
    else rfind s [c] + 1.
Proof. cbn [rfind]. by rewrite startswith_char. Qed.

(** [find] gives the first occurrence of a character, or -1 when there is
    none. *)
Lemma find_char_spec s c :
  (find s [c] = -1 /\ c ∉ s)
  \/ (exists i, find s [c] = Z.of_nat i /\ first_at c s i).
Proof.
  induction s as [|x s IH].
  - left. split; [apply find_nil | apply not_elem_of_nil].
  - rewrite find_cons. destruct (bool_decide (x = c)) eqn:Hx.
    + apply bool_decide_eq_true in Hx as ->. right. exists 0%nat.
      split; [done|]. split; [done|]. intros j Hj. lia.
    + apply bool_decide_eq_false in Hx.
      destruct IH as [[-> Hnot] | (i & -> & Hi & Hbefore)].
      * left. split; [done|]. rewrite not_elem_of_cons. done.
      * right. exists (S i). destruct (Z.of_nat i =? -1) eqn:E; [lia|].
        split; [lia|]. split; [done|].
        intros [|j] Hj; simpl; [congruence|]. apply Hbefore. lia.
Qed.

(** [rfind] gives the last occurrence of a character, or -1. *)
Lemma rfind_char_spec s c :
  (rfind s [c] = -1 /\ c ∉ s)
  \/ (exists i, rfind s [c] = Z.of_nat i /\ last_at c s i).
Proof.
  induction s as [|x s IH].
  - left. split; [apply rfind_nil | apply not_elem_of_nil].
  - rewrite rfind_cons.
    destruct IH as [[-> Hnot] | (i & -> & Hi & Hafter)].
    + simpl. destruct (bool_decide (x = c)) eqn:Hx.
      * apply bool_decide_eq_true in Hx as ->. right. exists 0%nat.
        split; [done|]. split; [done|]. intros [|j] Hj; [lia|]. simpl.
        intros Hin. apply Hnot. by eapply list_elem_of_lookup_2.
      * apply bool_decide_eq_false in Hx. left. split; [done|].
        rewrite not_elem_of_cons. done.
    + right. exists (S i). destruct (Z.of_nat i =? -1) eqn:E; [lia|].
      split; [lia|]. split; [done|].
      intros [|j] Hj; [lia|]. simpl. apply Hafter. lia.
Qed.

Lemma slice_to_snoc (b : str) x : slice_to (b ++ [x]) (-1) = b.
Proof.
  unfold slice_to, bound. rewrite length_app. simpl.
  apply take_app_length'. lia.
Qed.

Lemma slice_between (u : str) (i j : nat) :
  (i < j)%nat -> (j < length u)%nat ->
  slice u (Z.of_nat i) (Z.of_nat j + 1) = take (j - i + 1)%nat (drop i u).
Proof.
  intros Hij Hj. unfold slice, bound.
  destruct (Z.of_nat i <? 0) eqn:E1; [lia|].
  destruct (Z.of_nat j + 1 <? 0) eqn:E2; [lia|].
  replace (Z.to_nat (Z.min (Z.of_nat i) (Z.of_nat (length u)))) with i by lia.
  replace (Z.to_nat (Z.min (Z.of_nat j + 1) (Z.of_nat (length u))))
    with (j + 1)%nat by lia.
  f_equal. lia.
Qed.

(** The loop that strips trailing backticks runs to its end within
    [length text] iterations. *)
Lemma strip_backticks_spec fuel (text : str) :
  (length text <= fuel)%nat ->
  without_trailing_backticks text
    (while fuel (fun t => endswith t Navigator.backtick)
           (fun t => slice_to t (-1)) text).
Proof.
  revert text. induction fuel as [|fuel IH]; intros text Hlen; simpl.
  - destruct text; [|simpl in Hlen; lia].
    exists []. split; [done|]. split; [constructor|].
    intros b Hb. by destruct b.
  - destruct (endswith text Navigator.backtick) eqn:Hend.
    + apply (endswith_char text backtick_char) in Hend as [b ->].
      rewrite slice_to_snoc.
      destruct (IH b) as (ticks & Hb & Hticks & Hbody).
      { rewrite length_app in Hlen. simpl in Hlen. lia. }
      exists (ticks ++ [backtick_char]). split; [|split; [|done]].
      * rewrite app_assoc. by rewrite <- Hb.
      * apply Forall_app. split; [done | by repeat constructor].
    + exists []. split; [by rewrite app_nil_r|]. split; [constructor|].
      intros b ->. assert (endswith (b ++ [backtick_char]) Navigator.backtick = true)
        by (apply (endswith_char _ backtick_char); eauto).
      congruence.
Qed.

(** The text after the first line break, as the code slices it. *)
Lemma first_line_spec (t : str) :
  after_first_line t
    (if negb (find t Navigator.newline =? -1)
     then slice_from t (find t Navigator.newline + 1) else t).
Proof.
  destruct (find_char_spec t newline_char) as [[Hf Hnot] | (i & Hf & Hi & Hbefore)];
    change (find t Navigator.newline) with (find t [newline_char]); rewrite Hf.
  - right. done.
  - destruct (Z.of_nat i =? -1) eqn:E; [lia|]. simpl. left.
    exists (take i t). split.
    + unfold slice_from, bound.
      pose proof (lookup_lt_Some _ _ _ Hi) as Hlt.
      destruct (Z.of_nat i + 1 <? 0) eqn:E1; [lia|].
      replace (Z.to_nat (Z.min (Z.of_nat i + 1) (Z.of_nat (length t))))
        with (S i) by lia.
      symmetry. by apply take_drop_middle.
    + intros Hin. apply list_elem_of_lookup in Hin as [j Hj].
      apply lookup_take_Some in Hj as [Hj Hlt]. by apply (Hbefore j).
Qed.

(** The candidate block, as the code slices it. *)
Lemma candidate_block_spec (u : str) :
  candidate_block u
    (if negb (find u Navigator.lbrace =? -1)
        && negb (rfind u Navigator.rbrace =? -1)
        && (rfind u Navigator.rbrace >? find u Navigator.lbrace)
     then slice u (find u Navigator.lbrace) (rfind u Navigator.rbrace + 1)
     else u).
Proof.
  change (find u Navigator.lbrace) with (find u [lbrace_char]).
  change (rfind u Navigator.rbrace) with (rfind u [rbrace_char]).
  destruct (find_char_spec u lbrace_char) as [[-> Hnot] | (i & -> & Hi)].
  { right. split; [|done]. intros i j [Hi _]. destruct Hnot.
    by eapply list_elem_of_lookup_2. }
  destruct (rfind_char_spec u rbrace_char) as [[-> Hnot] | (j & -> & Hj)].
  { right. rewrite andb_false_r. simpl. split; [|done].
    intros i' j' _ [Hj' _]. destruct Hnot. by eapply list_elem_of_lookup_2. }
  destruct (Z.eqb_spec (Z.of_nat i) (-1)) as [E1|_]; [exfalso; lia|].
  destruct (Z.eqb_spec (Z.of_nat j) (-1)) as [E2|_]; [exfalso; lia|]. simpl.
  destruct (Z.of_nat j >? Z.of_nat i) eqn:E3.
  - left. exists i, j. split; [done|]. split; [done|].
    assert (i < j)%nat by lia. split; [done|].
    apply slice_between; [done|]. destruct Hj as [Hj _].
    by eapply lookup_lt_Some.
  - right. split; [|done]. intros i' j' Hi' Hj'.
    rewrite (first_at_unique _ _ _ _ Hi' Hi), (last_at_unique _ _ _ _ Hj' Hj).
    lia.
Qed.

End StringFacts.

Section ExtractorProperties.
Import Navigator.

(** C5, as amended: [_extract_json_block] is a function of its input that
    returns the empty string on the empty input and otherwise trims the
    input; if the trimmed text begins with a fence marker it strips the first
    line when a line break ends it (a fenced text of a single line is kept),
    strips every trailing backtick and trims whitespace again; then, if a
    first [{] and a last [}] both exist with the [}] after the [{], it returns
    the text from the one to the other inclusive, and otherwise the trimmed
    text unchanged. *)
Theorem extract_json_block_spec :
  _extract_json_block [] = []
  /\ forall raw : str, exists t u,
      trimmed raw t /\ unfenced t u /\ candidate_block u (_extract_json_block raw).
Proof.
  split; [reflexivity|]. intros raw.
  destruct raw as [|c raw].
  { exists [], []. split; [apply (strip_trimmed [])|]. split.
    - right. split; [|done]. intros [k Hk]. discriminate.
    - right. split; [|done]. intros i j [Hi _]. discriminate. }
  unfold _extract_json_block. cbn [nonempty negb].
  set (text := strip (c :: raw)).
  exists text. destruct (startswith text fence) eqn:Hfence.
  - eexists. split; [apply strip_trimmed|]. split; [|apply candidate_block_spec].
    left. split; [by apply bool_decide_eq_true in Hfence|].
    do 2 eexists. split; [apply first_line_spec|].
    split; [by apply strip_backticks_spec | apply strip_trimmed].
  - exists text. split; [apply strip_trimmed|]. split; [|apply candidate_block_spec].
    right. split; [|done]. by apply bool_decide_eq_false in Hfence.
Qed.

End ExtractorProperties.

Section ExtractorExamples.
Import Navigator Examples.

(** The two extraction examples of the specification: a fenced response and
    a response wrapped in prose. *)
Example extract_fenced :
  _extract_json_block
    (py "```json" ++ newline ++ py "{" ++ quoted "a" ++ py ":1}" ++ newline
     ++ py "```")
  = py "{" ++ quoted "a" ++ py ":1}".
Proof. vm_compute. reflexivity. Qed.

Example extract_from_prose :
  _extract_json_block
    (py "Sure! Here is it: {" ++ quoted "x" ++ py ":2} Hope that helps.")
  = py "{" ++ quoted "x" ++ py ":2}".
Proof. vm_compute. reflexivity. Qed.

(** C5 fails as stated: on a fenced response of a single line the first
    line is the whole text, and stripping it leaves nothing; the code keeps
    the line and returns the block inside it. *)
Lemma extract_keeps_single_line :
  startswith one_line_fence fence = true
  /\ drop_first_line one_line_fence = []
  /\ extract_as_specified one_line_fence = []
  /\ _extract_json_block one_line_fence = py "{}"
  /\ _extract_json_block one_line_fence <> extract_as_specified one_line_fence.
Proof. repeat split; try (vm_compute; reflexivity). vm_compute. discriminate. Qed.

End ExtractorExamples.

(** ** The plan pipeline *)

Section PlanProperties.
Import Navigator.

Variable call_llm : str -> result (option str).
Variable json_loads : str -> result value.

Abbreviation plan := (plan_code_generation call_llm json_loads).
Abbreviation parsed_mapping := (Spec.parsed_mapping call_llm json_loads).

Arguments _extract_json_block : simpl never.
Arguments planning_prompt : simpl never.

Lemma plan_of_mapping requirements project_type raw d :
  parsed_mapping requirements project_type raw d ->
  plan requirements project_type
  = Ok [ (py "components",
           VList (adopted [main_module requirements] (dict_get d "components")));
         (py "search_queries",
           VList (adopted [VStr requirements] (dict_get d "search_queries"))) ].
Proof.
  intros (Hcall & Hraw & Hloads).
  unfold plan_code_generation. rewrite Hcall. simpl.
  destruct raw as [|c raw]; [done|]. simpl.
  rewrite Hloads. simpl.
  destruct (dict_get d "components") as [[| | | | |[|x xs]|]|];
    destruct (dict_get d "search_queries") as [[| | | | |[|y ys]|]|];
    reflexivity.
Qed.

Lemma plan_without_mapping requirements project_type :
  (forall raw d, ~ parsed_mapping requirements project_type raw d) ->
  plan requirements project_type = Ok (default_plan requirements).
Proof.
  intros Hnone. unfold plan_code_generation.
  destruct (call_llm (planning_prompt requirements project_type))
    as [[raw|]|e] eqn:Hcall; simpl; try reflexivity.
  destruct raw as [|c raw]; simpl; [reflexivity|].
  destruct (json_loads (_extract_json_block (c :: raw))) as [parsed|e] eqn:Hloads;
    simpl; [|reflexivity].
  destruct parsed; simpl; try reflexivity.
  exfalso. apply (Hnone (c :: raw) d). repeat split; done.
Qed.

(** Every run is one of the two. *)
Lemma plan_cases requirements project_type :
  (exists raw d, parsed_mapping requirements project_type raw d)
  \/ (forall raw d, ~ parsed_mapping requirements project_type raw d).
Proof.
  unfold parsed_mapping.
  destruct (call_llm (planning_prompt requirements project_type))
    as [[raw|]|e] eqn:Hcall.
  - destruct raw as [|c raw].
    + right. intros raw d (H & Hne & _). congruence.
    + destruct (json_loads (_extract_json_block (c :: raw))) as [parsed|e] eqn:Hl.
      * destruct parsed;
          try (right; intros raw' d' (H & _ & H'); congruence).
        left. exists (c :: raw), d. done.
      * right. intros raw' d' (H & _ & H'). congruence.
  - right. intros raw d (H & _). congruence.
  - right. intros raw d (H & _). congruence.
Qed.

Lemma plan_shape requirements project_type :
  exists cs qs,
    plan requirements project_type
    = Ok [ (py "components", VList cs); (py "search_queries", VList qs) ]
    /\ cs <> [] /\ qs <> [].
Proof.
  destruct (plan_cases requirements project_type) as [(raw & d & Hmap) | Hnone].
  - rewrite (plan_of_mapping _ _ _ _ Hmap). do 2 eexists. split; [done|].
    split; [destruct (dict_get d "components") as [[| | | | |[|x xs]|]|]
           |destruct (dict_get d "search_queries") as [[| | | | |[|y ys]|]|]];
      done.
  - rewrite (plan_without_mapping _ _ Hnone). by do 2 eexists.
Qed.

(** C4 (default floor): when the text-generation collaborator returns the
    empty string (or nothing) or raises, [plan_code_generation] returns exactly
    the plan with the single component [main_module], described by the
    requirement with priority 1, and the requirement as only search query. *)
Theorem plan_default_floor requirements project_type :
  (call_llm (planning_prompt requirements project_type) = Ok (Some [])
   \/ call_llm (planning_prompt requirements project_type) = Ok None
   \/ exists exc, call_llm (planning_prompt requirements project_type) = Raise exc) ->
  plan requirements project_type
  = Ok [ (py "components",
           VList [ VDict [ (py "name", VStr "main_module");
                           (py "description", VStr requirements);
                           (py "priority", VInt 1) ] ]);
         (py "search_queries", VList [ VStr requirements ]) ].
Proof.
  intros Hcall. unfold plan_code_generation.
  destruct Hcall as [-> | [-> | [exc ->]]]; reflexivity.
Qed.

(** C8 (partial-plan repair): when the response parses to a mapping whose
    [components] is a non-empty list while its [search_queries] is an empty
    list, absent or not a list, the plan adopts the components and keeps
    the default search queries [[requirement]]; symmetrically, whenever
    [components] is an empty list, absent or not a list, the plan keeps the
    default components, whatever [search_queries] is: next to them stand the
    response's queries when these are a non-empty list, and the default
    queries otherwise. *)
Theorem plan_partial_repair requirements project_type raw d :
  parsed_mapping requirements project_type raw d ->
  (forall c cs,
      dict_get d "components" = Some (VList (c :: cs)) ->
      (forall q qs, dict_get d "search_queries" <> Some (VList (q :: qs))) ->
      plan requirements project_type
      = Ok [ (py "components", VList (c :: cs));
             (py "search_queries", VList [ VStr requirements ]) ])
  /\ ((forall c cs, dict_get d "components" <> Some (VList (c :: cs))) ->
      exists queries,
        plan requirements project_type
        = Ok [ (py "components",
                 VList [ VDict [ (py "name", VStr "main_module");
                                 (py "description", VStr requirements);
                                 (py "priority", VInt 1) ] ]);
               (py "search_queries", VList queries) ]
        /\ (forall q qs,
              dict_get d "search_queries" = Some (VList (q :: qs)) ->
              queries = q :: qs)
        /\ ((forall q qs, dict_get d "search_queries" <> Some (VList (q :: qs))) ->
            queries = [ VStr requirements ])).
Proof.
  intros Hmap. rewrite (plan_of_mapping _ _ _ _ Hmap). split.
  - intros c cs Hc Hq. rewrite Hc. simpl.
    destruct (dict_get d "search_queries") as [[| | | | |[|y ys]|]|]; try reflexivity.
    exfalso. by apply (Hq y ys).
  - intros Hc.
    exists (adopted [VStr requirements] (dict_get d "search_queries")).
    split; [|split].
    + destruct (dict_get d "components") as [[| | | | |[|x xs]|]|]; try reflexivity.
      exfalso. by apply (Hc x xs).
    + intros q qs ->. reflexivity.
    + intros Hq.
      destruct (dict_get d "search_queries") as [[| | | | |[|y ys]|]|];
        try reflexivity.
      exfalso. by apply (Hq y ys).
Qed.

(** C3, as amended: [plan_code_generation] never fails and always returns
    a mapping with exactly the keys [components] and [search_queries], each a
    non-empty list.  Each list is either its default (the single
    [main_module] component, the requirement) or the non-empty list the parsed
    response carries under that key, adopted without a look at its items: the
    plan is a structurally valid Plan exactly when every adopted component is
    a Component record and every adopted query a string. *)
Theorem plan_total_nonempty requirements project_type :
  exists cs qs,
    plan requirements project_type
    = Ok [ (py "components", VList cs); (py "search_queries", VList qs) ]
    /\ cs <> [] /\ qs <> []
    /\ (cs = [main_module requirements]
        \/ exists raw d, parsed_mapping requirements project_type raw d
                         /\ dict_get d "components" = Some (VList cs))
    /\ (qs = [VStr requirements]
        \/ exists raw d, parsed_mapping requirements project_type raw d
                         /\ dict_get d "search_queries" = Some (VList qs))
    /\ valid_plan [ (py "components", VList cs); (py "search_queries", VList qs) ]
       = forallb is_component cs && forallb is_string qs.
Proof.
  destruct (plan_cases requirements project_type) as [(raw & d & Hmap) | Hnone].
  - exists (adopted [main_module requirements] (dict_get d "components")),
      (adopted [VStr requirements] (dict_get d "search_queries")).
    split; [by apply (plan_of_mapping _ _ raw)|].
    destruct (dict_get d "components") as [[| | | | |[|x xs]|]|] eqn:Hc;
      destruct (dict_get d "search_queries") as [[| | | | |[|y ys]|]|] eqn:Hq;
      simpl; (repeat split; try done;
              try (by left); try (right; exists raw, d; done)).
  - exists [main_module requirements], [VStr requirements].
    split; [by apply plan_without_mapping|].
    repeat split; try done; by left.
Qed.

End PlanProperties.

Section PlanExamples.
Import Navigator Examples.

(** C4, at an unreachable collaborator. *)
Lemma plan_default_floor_witness :
  plan_code_generation llm_down Json.json_loads "parse logs" "cli"
  = Ok [ (py "components",
           VList [ VDict [ (py "name", VStr "main_module");
                           (py "description", VStr "parse logs");
                           (py "priority", VInt 1) ] ]);
         (py "search_queries", VList [ VStr "parse logs" ]) ].
Proof.
  apply plan_default_floor. right. right. exists (Exc "ConnectionError").
  reflexivity.
Defined.

(** C8, at a response with one component and an empty query list, and at
    the response [{}], where both fields are absent. *)
Lemma plan_partial_repair_witness :
  plan_code_generation (llm_says components_only) Json.json_loads "parse logs" "cli"
  = Ok [ (py "components",
           VList [ VDict [ (py "name", VStr "cli");
                           (py "description", VStr "entry point");
                           (py "priority", VInt 2) ] ]);
         (py "search_queries", VList [ VStr "parse logs" ]) ]
  /\ exists queries,
      plan_code_generation (llm_says "{}") Json.json_loads "parse logs" "cli"
      = Ok [ (py "components",
               VList [ VDict [ (py "name", VStr "main_module");
                               (py "description", VStr "parse logs");
                               (py "priority", VInt 1) ] ]);
             (py "search_queries", VList queries) ]
      /\ (forall q qs,
            dict_get [] "search_queries" = Some (VList (q :: qs)) ->
            queries = q :: qs)
      /\ ((forall q qs, dict_get [] "search_queries" <> Some (VList (q :: qs))) ->
          queries = [ VStr "parse logs" ]).
Proof.
  split.
  - refine (proj1 (plan_partial_repair (llm_says components_only) Json.json_loads
                     "parse logs" "cli" components_only
                     [ (py "components",
                         VList [ VDict [ (py "name", VStr "cli");
                                         (py "description", VStr "entry point");
                                         (py "priority", VInt 2) ] ]);
                       (py "search_queries", VList []) ] _) _ _ _ _).
    + split; [reflexivity|]. split; [discriminate|]. vm_compute. reflexivity.
    + vm_compute. reflexivity.
    + intros q qs. vm_compute. discriminate.
  - refine (proj2 (plan_partial_repair (llm_says "{}") Json.json_loads
                     "parse logs" "cli" "{}" [] _) _).
    + split; [reflexivity|]. split; [discriminate|]. vm_compute. reflexivity.
    + intros c cs. vm_compute. discriminate.
Defined.

(** C3 fails as stated: the response [{"components": [1]}] is adopted, and
    the returned plan holds a component that is no Component record. *)
Lemma plan_components_unchecked :
  plan_code_generation (llm_says unchecked_components) Json.json_loads
                       "parse logs" "cli"
  = Ok [ (py "components", VList [ VInt 1 ]);
         (py "search_queries", VList [ VStr "parse logs" ]) ]
  /\ valid_plan [ (py "components", VList [ VInt 1 ]);
                  (py "search_queries", VList [ VStr "parse logs" ]) ] = false.
Proof. split; vm_compute; reflexivity. Qed.

End PlanExamples.

(** ** The documentation pipeline *)

Section DocProperties.
Import Navigator Doc.

Variable call_llm : str -> result (option str).
Variable json_loads : str -> result value.
Variable json_dumps : value -> result str.
Variable py_str : value -> str.

Abbreviation document := (generate_documentation call_llm json_loads json_dumps py_str).
Abbreviation prompt_of := (build_prompt json_dumps py_str).
Abbreviation response_mapping := (Spec.response_mapping call_llm json_loads).

Lemma render_exemplar_mapping d :
  exists text, render_exemplar py_str (VDict d) = Ok text.
Proof. unfold render_exemplar. simpl. eauto. Qed.

Lemma render_all_mappings (exs : list value) :
  Forall (fun ex => is_dict ex = true) exs ->
  exists texts, mapM (render_exemplar py_str) exs = Ok texts.
Proof.
  induction 1 as [|ex exs Hex _ [texts IH]]; simpl; [by eexists|].
  destruct ex; try discriminate.
  destruct (render_exemplar_mapping d) as [text ->]. simpl.
  rewrite IH. simpl. by eexists.
Qed.

(** The prompt is built whenever the exemplars that are rendered (the first
    three) are mappings. *)
Lemma prompt_built requirement project_type code exemplars tribal_kb :
  exemplars_typed exemplars ->
  exists prompt,
    prompt_of requirement project_type code exemplars tribal_kb = Ok prompt.
Proof.
  intros Hex. unfold build_prompt.
  destruct (render_all_mappings _ Hex) as [texts ->].
  destruct (nonempty (default [] exemplars)); simpl;
    destruct (nonempty (default [] tribal_kb)); simpl;
    try (destruct (json_dumps (VDict (default [] tribal_kb))); simpl);
    by eexists.
Qed.

Lemma document_after_prompt requirement project_type code exemplars tribal_kb prompt :
  prompt_of requirement project_type code exemplars tribal_kb = Ok prompt ->
  document requirement project_type code exemplars tribal_kb
  = match call_llm prompt with
    | Raise exc => Ok empty_bundle
    | Ok r =>
        match parse_response json_loads (match r with Some s => s | None => [] end) with
        | Ok (Some parsed) => Ok parsed
        | _ => Ok empty_bundle
        end
    end.
Proof.
  intros Hp. unfold generate_documentation. rewrite Hp. simpl.
  destruct (call_llm prompt) as [r|exc]; [|reflexivity].
  unfold parse_response, try_except.
  destruct (_ && _); [|reflexivity].
  destruct (json_loads _) as [[]|]; reflexivity.
Qed.

(** C9: when the text-generation collaborator raises, the bundle that
    [generate_documentation] returns has its five fields [readme],
    [api_docs], [inline_docs], [usage_examples] and
    [installation_instructions] all empty. *)
Theorem document_collaborator_raises
    requirement project_type code exemplars tribal_kb prompt exc :
  prompt_of requirement project_type code exemplars tribal_kb = Ok prompt ->
  call_llm prompt = Raise exc ->
  document requirement project_type code exemplars tribal_kb
  = Ok [ (py "readme", VStr "");
         (py "api_docs", VStr "");
         (py "inline_docs", VStr "");
         (py "usage_examples", VStr "");
         (py "installation_instructions", VStr "") ].
Proof.
  intros Hp Hraise. rewrite (document_after_prompt _ _ _ _ _ _ Hp), Hraise.
  reflexivity.
Qed.

(** C1, as amended: once the prompt is built, [generate_documentation]
    returns either the mapping the response parsed to, as it is and with
    whatever keys it has, or, on every other run, the bundle whose five keys
    are all present with empty strings.  So the bundle is fully populated on
    every fallback, and otherwise exactly when the parsed mapping is. *)
Theorem document_bundle_keys
    requirement project_type code exemplars tribal_kb prompt :
  prompt_of requirement project_type code exemplars tribal_kb = Ok prompt ->
  (forall raw d,
      response_mapping prompt raw d ->
      document requirement project_type code exemplars tribal_kb = Ok d)
  /\ ((forall raw d, ~ response_mapping prompt raw d) ->
      exists b,
        document requirement project_type code exemplars tribal_kb = Ok b
        /\ full_bundle b = true
        /\ Forall (fun k => dict_get b k = Some (VStr "")) bundle_keys).
Proof.
  intros Hp. rewrite (document_after_prompt _ _ _ _ _ _ Hp). split.
  - intros raw d (Hcall & Hs & He & Hl).
    assert (Hraw : exists r, call_llm prompt = Ok r
                             /\ match r with Some s => s | None => [] end = raw).
    { destruct Hcall as [H | [H ->]]; eauto. }
    destruct Hraw as (r & -> & ->).
    unfold parse_response, try_except.
    apply Z.eqb_neq in Hs, He. rewrite Hs, He. simpl. rewrite Hl. reflexivity.
  - intros Hnone.
    assert (Hempty : full_bundle empty_bundle = true
              /\ Forall (fun k => dict_get empty_bundle k = Some (VStr ""))
                        bundle_keys).
    { split; [reflexivity|]. repeat constructor. }
    destruct (call_llm prompt) as [r|exc] eqn:Hcall; [|by eexists].
    unfold parse_response, try_except.
    destruct (negb (find _ lbrace =? -1)) eqn:Hs; simpl; [|by eexists].
    destruct (negb (rfind _ rbrace =? -1)) eqn:He; simpl; [|by eexists].
    destruct (json_loads _) as [parsed|e] eqn:Hl; simpl; [|by eexists].
    destruct parsed; try (by eexists).
    exfalso. apply (Hnone (match r with Some s => s | None => [] end) d).
    apply negb_true_iff, Z.eqb_neq in Hs, He.
    repeat split; try done.
    destruct r; [by left | by right].
Qed.

End DocProperties.

Section DocExamples.
Import Doc Examples.

(** C9, at an unreachable collaborator. *)
Lemma document_collaborator_raises_witness :
  generate_documentation llm_down Json.json_loads no_dumps no_str
                         "parse logs" "cli" "" None None
  = Ok [ (py "readme", VStr "");
         (py "api_docs", VStr "");
         (py "inline_docs", VStr "");
         (py "usage_examples", VStr "");
         (py "installation_instructions", VStr "") ].
Proof.
  eapply document_collaborator_raises; reflexivity.
Defined.

(** C1, as amended, at a response that carries only a [readme]. *)
Lemma document_bundle_keys_witness :
  generate_documentation (llm_says readme_only) Json.json_loads no_dumps no_str
                         "parse logs" "cli" "" None None
  = Ok [ (py "readme", VStr "# Tool") ].
Proof.
  eapply (proj1 (document_bundle_keys (llm_says readme_only) Json.json_loads
                   no_dumps no_str "parse logs" "cli" "" None None _ eq_refl)
            readme_only).
  split; [by left|]. vm_compute. repeat split; discriminate.
Defined.

(** C1 fails as stated: the response [{"readme": "# Tool"}] parses to a
    mapping, which is returned with four of the five keys missing. *)
Lemma document_missing_keys :
  generate_documentation (llm_says readme_only) Json.json_loads no_dumps no_str
                         "parse logs" "cli" "" None None
  = Ok [ (py "readme", VStr "# Tool") ]
  /\ full_bundle [ (py "readme", VStr "# Tool") ] = false
  /\ has_key [ (py "readme", VStr "# Tool") ] "api_docs" = false.
Proof. repeat split; vm_compute; reflexivity. Qed.

End DocExamples.

(** ** The exemplar selector *)

Section SearchProperties.
Import Search.

Variable deep_search : str -> list value -> result value.

Abbreviation select := (find_function_exemplars deep_search).

Lemma in_bounds_spec n k : in_bounds n k = true <-> 0 <= k < Z.of_nat n.
Proof. unfold in_bounds. rewrite andb_true_iff, Z.leb_le, Z.ltb_lt. done. Qed.

(** Building an exemplar succeeds at every index in bounds of a typed
    section list. *)
Lemma build_exemplar_typed code_sections v :
  sections_typed code_sections ->
  in_bounds (length code_sections) (int_value v) = true ->
  exists d, code_sections !! Z.to_nat (int_value v) = Some (VDict d)
            /\ _build_exemplar code_sections v = Ok (exemplar_of v d).
Proof.
  intros Htyped Hin. pose proof Hin as Hb. apply in_bounds_spec in Hb.
  destruct (lookup_lt_is_Some_2 code_sections (Z.to_nat (int_value v)))
    as [entry Hentry]; [lia|].
  assert (Hd : is_dict entry = true).
  { eapply (proj1 (Forall_lookup _ _) Htyped); eauto. }
  destruct entry; try discriminate. exists d. split; [done|].
  unfold _build_exemplar, list_index.
  destruct (int_value v <? 0) eqn:Hneg; [lia|].
  unfold in_bounds in Hin. rewrite Hin, Hentry. reflexivity.
Qed.

(** The neighbor loop appends, in offset order, the exemplars of the offsets
    in bounds, until [max_exemplars] exemplars are held. *)
Lemma add_neighbors_spec code_sections max_exemplars idx todo :
  sections_typed code_sections ->
  forall exemplars, exists new,
    add_neighbors code_sections max_exemplars idx todo exemplars
    = Ok (exemplars ++ new)
    /\ Forall2 (exemplar_at code_sections)
         (take (Z.to_nat (max_exemplars - Z.of_nat (length exemplars)))
               (List.filter (in_bounds (length code_sections))
                            (map (Z.add idx) todo)))
         new.
Proof.
  intros Htyped. induction todo as [|offset todo IH]; intros exemplars; simpl.
  - exists []. rewrite app_nil_r, take_nil. split; [done | constructor].
  - destruct (Z.of_nat (length exemplars) >=? max_exemplars) eqn:Hfull.
    + exists []. rewrite app_nil_r. split; [done|].
      replace (Z.to_nat _) with 0%nat by lia. rewrite take_0. constructor.
    + fold (in_bounds (length code_sections) (idx + offset)).
      destruct (in_bounds (length code_sections) (idx + offset)) eqn:Hin.
      * destruct (build_exemplar_typed code_sections (VInt (idx + offset)))
          as (d & Hd & ->); [done..|]. simpl.
        destruct (IH (exemplars ++ [exemplar_of (VInt (idx + offset)) d]))
          as (new & -> & Hnew).
        exists (exemplar_of (VInt (idx + offset)) d :: new).
        rewrite <- app_assoc. split; [done|].
        rewrite length_app in Hnew. simpl in Hnew.
        replace (Z.to_nat (max_exemplars - Z.of_nat (length exemplars)))
          with (S (Z.to_nat (max_exemplars
                             - Z.of_nat (length exemplars + 1)%nat))) by lia.
        simpl. constructor; [by exists d | done].
      * apply IH.
Qed.

(** The index the selector settles on is an integer in bounds: the
    collaborator's, or 0. *)
Lemma chosen_index_spec code_sections res :
  code_sections <> [] ->
  exists v, chosen_index code_sections res = Ok v
    /\ in_bounds (length code_sections) (int_value v) = true
    /\ ((v = VInt 0 /\ no_usable_index (length code_sections) res)
        \/ (exists d, res = VDict d
               /\ dict_get d "chosen_section_index" = Some v
               /\ isinstance_int v = true)).
Proof.
  intros Hne.
  assert (H0 : in_bounds (length code_sections) 0 = true).
  { apply in_bounds_spec. destruct code_sections; [done | simpl; lia]. }
  unfold chosen_index, no_usable_index.
  destruct res; simpl; try (exists (VInt 0); split; [done|]; split; [done|];
                            left; split; [done | by left]).
  destruct (dict_get d "chosen_section_index") as [v|] eqn:Hv; simpl.
  - fold (in_bounds (length code_sections) (int_value v)).
    destruct (in_bounds (length code_sections) (int_value v)) eqn:Hin;
      destruct v; simpl in *;
      try (exists (VInt 0); split; [done|]; split; [done|]; left;
           split; [done|]; right; eexists; split; [done|]; right;
           eexists; split; [done|]; by left);
      try (eexists; split; [done|]; split; [done|]; right; eauto; fail).
    all: exists (VInt 0); split; [done|]; split; [done|]; left;
      split; [done|]; right; eexists; split; [done|]; right;
      eexists; split; [done|]; right;
      assert (Hn : ~ (0 <= int_value (VInt 0) < 0)) by (simpl; lia);
      match goal with
      | H : in_bounds _ ?k = false |- _ =>
          destruct (decide (k < 0)); [by left | right];
          destruct (decide (Z.of_nat (length code_sections) <= k)); [done|];
          assert (in_bounds (length code_sections) k = true)
            by (apply in_bounds_spec; lia); congruence
      end.
  - exists (VInt 0). split; [done|]. split; [done|]. left. split; [done|].
    right. exists d. split; [done|]. by left.
Qed.

(** The selection as a whole: the exemplar of the chosen index, then the
    neighbors the loop accepts. *)
Lemma select_spec requirement code_sections max_exemplars res :
  code_sections <> [] ->
  sections_typed code_sections ->
  deep_search requirement code_sections = Ok res ->
  exists v d neighbors,
    chosen_index code_sections res = Ok v
    /\ code_sections !! Z.to_nat (int_value v) = Some (VDict d)
    /\ select requirement code_sections max_exemplars
       = Ok (exemplar_of v d :: neighbors)
    /\ Forall2 (exemplar_at code_sections)
         (take (Z.to_nat (max_exemplars - 1))
               (List.filter (in_bounds (length code_sections))
                  [int_value v - 1; int_value v + 1;
                   int_value v - 2; int_value v + 2]))
         neighbors.
Proof.
  intros Hne Htyped Hrank.
  destruct (chosen_index_spec code_sections res Hne) as (v & Hv & Hin & _).
  destruct (build_exemplar_typed code_sections v Htyped Hin) as (d & Hd & Hb).
  destruct (add_neighbors_spec code_sections max_exemplars (int_value v)
              offsets Htyped [exemplar_of v d]) as (new & Hloop & Hnew).
  exists v, d, new. split; [done|]. split; [done|]. split; [|exact Hnew].
  unfold find_function_exemplars.
  destruct code_sections; [done|]. simpl negb. cbv iota.
  rewrite Hrank. simpl. rewrite Hv. simpl. rewrite Hb. simpl. exact Hloop.
Qed.

(** C6: given a valid chosen index [i], [find_function_exemplars] returns
    the exemplar of [i] first, followed by the exemplars of the neighbors in
    bounds, taken in the offset order -1, +1, -2, +2, until [max_exemplars]
    exemplars are collected or the four offsets are exhausted.  (With five
    sections, [i = 2] and [max_exemplars = 3] the source indices are
    [2; 1; 3].) *)
Theorem select_window requirement code_sections max_exemplars d i :
  sections_typed code_sections ->
  deep_search requirement code_sections = Ok (VDict d) ->
  dict_get d "chosen_section_index" = Some (VInt i) ->
  0 <= i < Z.of_nat (length code_sections) ->
  exists exemplars,
    select requirement code_sections max_exemplars = Ok exemplars
    /\ Forall2 (exemplar_at code_sections)
         (i :: take (Z.to_nat (max_exemplars - 1))
                    (List.filter (in_bounds (length code_sections))
                                 [i - 1; i + 1; i - 2; i + 2]))
         exemplars.
Proof.
  intros Htyped Hrank Hidx Hi.
  assert (Hne : code_sections <> []) by (destruct code_sections; simpl in *; [lia | done]).
  destruct (select_spec requirement code_sections max_exemplars _ Hne Htyped Hrank)
    as (v & d0 & neighbors & Hv & Hd0 & Hsel & Hnb).
  assert (v = VInt i) as ->.
  { assert (Hin : in_bounds (length code_sections) i = true)
      by (by apply in_bounds_spec).
    unfold in_bounds in Hin. unfold chosen_index in Hv. simpl in Hv.
    rewrite Hidx in Hv. simpl in Hv. rewrite Hin in Hv. by inversion Hv. }
  exists (exemplar_of (VInt i) d0 :: neighbors). split; [done|].
  constructor; [by exists d0 | exact Hnb].
Qed.

(** C7, as amended: for a non-empty list of sections, when the ranking
    result is no mapping, or lacks [chosen_section_index], or that value is
    no integer, or lies outside [0, len(sections)), [find_function_exemplars]
    uses index 0: it returns the exemplar of index 0 first, then the
    neighbors at 1 and 2 that exist, at most [max(1, max_exemplars)]
    exemplars in all (so at most [max_exemplars] whenever that is positive). *)
Theorem select_fallback requirement code_sections max_exemplars res :
  code_sections <> [] ->
  sections_typed code_sections ->
  deep_search requirement code_sections = Ok res ->
  no_usable_index (length code_sections) res ->
  exists exemplars,
    select requirement code_sections max_exemplars = Ok exemplars
    /\ Forall2 (exemplar_at code_sections)
         (0 :: take (Z.to_nat (max_exemplars - 1))
                    (List.filter (in_bounds (length code_sections)) [1; 2]))
         exemplars
    /\ Z.of_nat (length exemplars) <= Z.max 1 max_exemplars.
Proof.
  intros Hne Htyped Hrank Hbad.
  destruct (select_spec requirement code_sections max_exemplars _ Hne Htyped Hrank)
    as (v & d0 & neighbors & Hv & Hd0 & Hsel & Hnb).
  assert (v = VInt 0) as ->.
  { destruct (chosen_index_spec code_sections res Hne)
      as (v' & Hv' & Hin & [[-> _] | (d & -> & Hk & Hint)]); [congruence|].
    apply in_bounds_spec in Hin.
    destruct Hbad as [Hnd | (d' & [= <-] & [Hnone | (w & Hw & Hbad)])];
      [discriminate | congruence |].
    assert (w = v') as -> by congruence.
    destruct Hbad as [H | [H | H]]; [congruence | lia | lia]. }
  simpl in Hnb.
  exists (exemplar_of (VInt 0) d0 :: neighbors). split; [done|].
  split; [constructor; [by exists d0 | exact Hnb]|].
  apply Forall2_length in Hnb. simpl. rewrite <- Hnb, length_take. lia.
Qed.

(** C10, as amended: for every non-empty list of sections that are
    mappings, every result the ranking collaborator returns and every integer
    [max_exemplars], zero and negative ones included,
    [find_function_exemplars] returns at least one exemplar.  The first one
    is the primary exemplar, built from the section at the chosen index (the
    collaborator's index when it is an integer in bounds, 0 otherwise) and
    appended before the limit is looked at; when [max_exemplars] is not
    positive it is the only one, so the result is longer than
    [max_exemplars]. *)
Theorem select_at_least_one requirement code_sections max_exemplars res :
  code_sections <> [] ->
  sections_typed code_sections ->
  deep_search requirement code_sections = Ok res ->
  exists idx section neighbors,
    ((idx = VInt 0 /\ no_usable_index (length code_sections) res)
     \/ (exists d, res = VDict d
            /\ dict_get d "chosen_section_index" = Some idx
            /\ isinstance_int idx = true))
    /\ 0 <= int_value idx < Z.of_nat (length code_sections)
    /\ code_sections !! Z.to_nat (int_value idx) = Some (VDict section)
    /\ select requirement code_sections max_exemplars
       = Ok (exemplar_of idx section :: neighbors)
    /\ (1 <= length (exemplar_of idx section :: neighbors))%nat
    /\ (max_exemplars <= 0 ->
        neighbors = []
        /\ max_exemplars < Z.of_nat (length (exemplar_of idx section :: neighbors))).
Proof.
  intros Hne Htyped Hrank.
  destruct (select_spec requirement code_sections max_exemplars _ Hne Htyped Hrank)
    as (v & d0 & neighbors & Hv & Hd0 & Hsel & Hnb).
  destruct (chosen_index_spec code_sections res Hne) as (v' & Hv' & Hin & Hwhich).
  assert (v' = v) as -> by congruence.
  exists v, d0, neighbors. split; [exact Hwhich|].
  split; [by apply in_bounds_spec|]. split; [done|]. split; [done|].
  split; [simpl; lia|]. intros Hmax.
  replace (Z.to_nat (max_exemplars - 1)) with 0%nat in Hnb by lia.
  rewrite take_0 in Hnb. apply Forall2_nil_inv_l in Hnb as ->.
  split; [done | simpl; lia].
Qed.

End SearchProperties.

Section SearchExamples.
Import Search Examples.

(** C6, at five sections, chosen index 2 and a limit of 3: the exemplars
    come from the source indices 2, 1 and 3, in that order. *)
Lemma select_window_witness :
  exists exemplars,
    find_function_exemplars (rank_says (chooses 2)) "parse logs" five_sections 3
    = Ok exemplars
    /\ Forall2 (exemplar_at five_sections) [2; 1; 3] exemplars.
Proof.
  apply (select_window (rank_says (chooses 2)) "parse logs" five_sections 3
           [ (py "chosen_section_index", VInt 2) ] 2).
  - repeat constructor.
  - reflexivity.
  - reflexivity.
  - simpl. lia.
Defined.

(** C7, as amended, at a ranking result without [chosen_section_index]. *)
Lemma select_fallback_witness :
  exists exemplars,
    find_function_exemplars (rank_says (VDict [])) "parse logs" five_sections 2
    = Ok exemplars
    /\ Forall2 (exemplar_at five_sections) [0; 1] exemplars
    /\ Z.of_nat (length exemplars) <= 2.
Proof.
  apply (select_fallback (rank_says (VDict [])) "parse logs" five_sections 2
           (VDict [])).
  - discriminate.
  - repeat constructor.
  - reflexivity.
  - right. exists []. split; [reflexivity|]. left. reflexivity.
Defined.

(** C7 fails as stated: with a limit of 0 and a ranking result that lacks
    [chosen_section_index], one exemplar is returned, which is more than the
    limit. *)
Lemma select_fallback_exceeds_limit :
  find_function_exemplars (rank_says (VDict [])) "parse logs" five_sections 0
  = Ok [ first_exemplar ]
  /\ no_usable_index (length five_sections) (VDict [])
  /\ ~ (Z.of_nat (length [ first_exemplar ]) <= 0).
Proof.
  split; [vm_compute; reflexivity|]. split.
  - right. exists []. split; [reflexivity|]. left. reflexivity.
  - simpl. lia.
Qed.

(** C10, as amended, at a limit of 0. *)
Lemma select_at_least_one_witness :
  exists idx section neighbors,
    ((idx = VInt 0 /\ no_usable_index (length five_sections) (chooses 2))
     \/ (exists d, chooses 2 = VDict d
            /\ dict_get d "chosen_section_index" = Some idx
            /\ isinstance_int idx = true))
    /\ 0 <= int_value idx < Z.of_nat (length five_sections)
    /\ five_sections !! Z.to_nat (int_value idx) = Some (VDict section)
    /\ find_function_exemplars (rank_says (chooses 2)) "parse logs" five_sections 0
       = Ok (exemplar_of idx section :: neighbors)
    /\ (1 <= length (exemplar_of idx section :: neighbors))%nat
    /\ (0 <= 0 ->
        neighbors = []
        /\ 0 < Z.of_nat (length (exemplar_of idx section :: neighbors))).
Proof.
  apply (select_at_least_one (rank_says (chooses 2)) "parse logs" five_sections 0
           (chooses 2)).
  - discriminate.
  - repeat constructor.
  - reflexivity.
Defined.

(** C10 fails as stated: a non-empty section list does not by itself
    yield an exemplar.  A chosen section that is no mapping has no [get]
    method, and a ranking collaborator that raises is not handled; either
    way the call raises and returns nothing. *)
Lemma select_returns_nothing :
  find_function_exemplars (rank_says (chooses 0)) "parse logs"
    [ VStr "def f(): pass" ] 0
  = Raise AttributeError
  /\ find_function_exemplars
       (fun requirement code_sections => Raise (Exc "Timeout"))
       "parse logs" five_sections 0
     = Raise (Exc "Timeout").
Proof. split; vm_compute; reflexivity. Qed.

End SearchExamples.

(** ** Totality of the three pipelines *)

Section Totality.
Import Navigator Search Doc.

Variable call_llm : str -> result (option str).
Variable deep_search : str -> list value -> result value.
Variable json_loads : str -> result value.
Variable json_dumps : value -> result str.
Variable py_str : value -> str.

Lemma select_shape requirement code_sections max_exemplars :
  sections_typed code_sections ->
  (code_sections = []
   \/ exists res, deep_search requirement code_sections = Ok res) ->
  exists exemplars,
    find_function_exemplars deep_search requirement code_sections max_exemplars
    = Ok exemplars
    /\ Forall (is_exemplar code_sections) exemplars.
Proof.
  intros Htyped [-> | [res Hrank]]; [by exists []|].
  destruct code_sections as [|entry rest] eqn:Hcs; [by exists []|].
  rewrite <- Hcs in *.
  assert (Hne : code_sections <> []) by (by rewrite Hcs).
  destruct (select_spec deep_search requirement code_sections max_exemplars
              res Hne Htyped Hrank)
    as (v & d & neighbors & _ & Hd & -> & Hnb).
  eexists. split; [done|]. constructor.
  - exists v, d. split; [|done]. by eapply list_elem_of_lookup_2.
  - clear -Hnb. induction Hnb as [|k ex ks exs (d & Hd & ->) _ IH];
      constructor; [|done].
    exists (VInt k), d. split; [|done]. by eapply list_elem_of_lookup_2.
Qed.

(** C2, as amended: for all inputs whose code sections and rendered
    exemplars are mappings (the requirement and the section list may be empty,
    the text-generation collaborator may raise, the ranking collaborator may
    answer anything), each of the three public pipelines returns a value of
    its shape and raises nothing: [plan_code_generation] a mapping of
    [components] and [search_queries] to non-empty lists,
    [find_function_exemplars] a list of exemplars of the sections, and
    [generate_documentation] a mapping. *)
Theorem pipelines_total requirement project_type code exemplars tribal_kb
    code_sections max_exemplars :
  exemplars_typed exemplars ->
  sections_typed code_sections ->
  (code_sections = []
   \/ exists res, deep_search requirement code_sections = Ok res) ->
  (exists cs qs,
      plan_code_generation call_llm json_loads requirement project_type
      = Ok [ (py "components", VList cs); (py "search_queries", VList qs) ]
      /\ cs <> [] /\ qs <> [])
  /\ (exists exs,
        find_function_exemplars deep_search requirement code_sections max_exemplars
        = Ok exs
        /\ Forall (is_exemplar code_sections) exs)
  /\ (exists bundle,
        generate_documentation call_llm json_loads json_dumps py_str
          requirement project_type code exemplars tribal_kb
        = Ok bundle).
Proof.
  intros Hex Hsec Hrank. split; [apply plan_shape|].
  split; [by apply select_shape|].
  destruct (prompt_built json_dumps py_str requirement project_type code
              exemplars tribal_kb Hex) as [prompt Hp].
  rewrite (document_after_prompt call_llm json_loads json_dumps py_str
             _ _ _ _ _ _ Hp).
  destruct (call_llm prompt) as [r|exc]; [|by eexists].
  destruct (parse_response json_loads _) as [[parsed|]|e]; by eexists.
Qed.

End Totality.

Section TotalityExamples.
Import Navigator Search Doc Examples.

(** C2, as amended, at an empty requirement, an unreachable text-generation
    collaborator, five sections and one exemplar. *)
Lemma pipelines_total_witness :
  (exists cs qs,
      plan_code_generation llm_down Json.json_loads "" "cli"
      = Ok [ (py "components", VList cs); (py "search_queries", VList qs) ]
      /\ cs <> [] /\ qs <> [])
  /\ (exists exs,
        find_function_exemplars (rank_says (VStr "none")) "" five_sections 3
        = Ok exs
        /\ Forall (is_exemplar five_sections) exs)
  /\ (exists bundle,
        generate_documentation llm_down Json.json_loads no_dumps no_str
          "" "cli" "" (Some [ section "a" ]) None
        = Ok bundle).
Proof.
  apply pipelines_total.
  - repeat constructor.
  - repeat constructor.
  - right. by eexists.
Defined.

(** C2 fails as stated: an exemplar, or a code section, that is no mapping
    has no [get] method, and the [AttributeError] reaches the caller. *)
Lemma pipelines_raise_on_non_mappings :
  generate_documentation (llm_says readme_only) Json.json_loads no_dumps no_str
    "parse logs" "cli" "" (Some [ VStr "def f(): pass" ]) None
  = Raise AttributeError
  /\ find_function_exemplars (rank_says (chooses 0)) "parse logs"
       [ VStr "def f(): pass" ] 3
     = Raise AttributeError.
Proof. split; vm_compute; reflexivity. Qed.

(** The ranking collaborator is called outside any handler: what it raises
    reaches the caller of [find_function_exemplars]. *)
Lemma select_ranking_raises :
  find_function_exemplars (fun requirement code_sections => Raise (Exc "Timeout"))
    "parse logs" five_sections 3
  = Raise (Exc "Timeout").
Proof. reflexivity. Qed.

End TotalityExamples.

(** * Further properties of the code *)

(** ** The payload extractor, stage by stage *)

Section ExtractorStages.
Import Navigator.

Lemma extract_stages raw : _extract_json_block raw = block_of (unfence (strip raw)).
Proof. destruct raw; reflexivity. Qed.

Lemma lstrip_outer l s : all_space l -> lstrip (l ++ s) = lstrip s.
Proof. induction 1 as [|c l Hc _ IH]; simpl; [done|]. by rewrite Hc. Qed.

Lemma lstrip_all_space s : all_space s -> lstrip s = [].
Proof. intros H. rewrite <- (app_nil_r s). by rewrite lstrip_outer. Qed.

Lemma rstrip_outer s r : all_space r -> rstrip (s ++ r) = rstrip s.
Proof.
  intros Hr. unfold rstrip. rewrite rev_app_distr, lstrip_outer; [done|].
  unfold all_space. by apply Forall_rev.
Qed.

Lemma strip_outer l s r :
  all_space l -> all_space r -> strip (l ++ s ++ r) = strip s.
Proof.
  intros Hl Hr. unfold strip. rewrite lstrip_outer by done. clear l Hl.
  induction s as [|c s IH]; simpl.
  - by rewrite lstrip_all_space.
  - destruct (is_space c); [done|].
    by rewrite (app_comm_cons s r c), rstrip_outer.
Qed.

Lemma lstrip_fixed s :
  (forall c t, s = c :: t -> is_space c = false) -> lstrip s = s.
Proof. destruct s as [|c s]; [done|]. intros H. simpl. by rewrite (H c s). Qed.

Lemma strip_fixed s : no_outer_space s -> strip s = s.
Proof.
  intros [Hhead Hlast]. unfold strip, rstrip. rewrite (lstrip_fixed s Hhead).
  rewrite lstrip_fixed; [apply rev_involutive|].
  intros c t Hrev. apply (Hlast c (rev t)).
  rewrite <- (rev_involutive s), Hrev. done.
Qed.

Lemma strip_no_outer_space s : no_outer_space (strip s).
Proof. destruct (strip_trimmed s) as (l & r & _ & _ & _ & H1 & H2). by split. Qed.

Lemma part_of_refl a : part_of a a.
Proof. exists [], []. by rewrite app_nil_r. Qed.

Lemma part_of_trans a b c : part_of a b -> part_of b c -> part_of a c.
Proof.
  intros (p1 & q1 & ->) (p2 & q2 & ->). exists (p2 ++ p1), (q1 ++ q2).
  by rewrite <- !app_assoc.
Qed.

Lemma trimmed_part s t : trimmed s t -> part_of t s.
Proof. intros (l & r & -> & _). by exists l, r. Qed.

Lemma unfence_part text : part_of (unfence text) text.
Proof.
  unfold unfence. destruct (startswith text fence); [|apply part_of_refl].
  pose (rest := if negb (find text newline =? -1)
                then slice_from text (find text newline + 1) else text).
  assert (Hrest : after_first_line text rest) by apply first_line_spec.
  change (part_of (strip (while (length rest) (fun t => endswith t backtick)
                            (fun t => slice_to t (-1)) rest)) text).
  clearbody rest.
  eapply part_of_trans; [apply trimmed_part, strip_trimmed|].
  apply (part_of_trans _ rest).
  - destruct (strip_backticks_spec (length rest) rest (Nat.le_refl _))
      as (ticks & Hb & _).
    exists [], ticks. simpl. exact Hb.
  - destruct Hrest as [(line & Ht & _) | [_ ->]]; [|apply part_of_refl].
    exists (line ++ [newline_char]), []. rewrite app_nil_r, <- app_assoc.
    exact Ht.
Qed.

(** The text between two positions, end points included. *)
Lemma between_ends (u : str) i j a b :
  (i < j)%nat -> u !! i = Some a -> u !! j = Some b ->
  exists mid, take (j - i + 1)%nat (drop i u) = a :: mid ++ [b].
Proof.
  intros Hij Hi Hj. rewrite (drop_S u a i Hi).
  replace (j - i + 1)%nat with (S (S (j - i - 1))) by lia.
  rewrite firstn_cons.
  exists (take (j - i - 1)%nat (drop (S i) u)). f_equal.
  apply take_S_r. rewrite lookup_drop. rewrite <- Hj. f_equal. lia.
Qed.

Lemma block_of_spec u : candidate_block u (block_of u).
Proof. exact (candidate_block_spec u). Qed.

Lemma block_of_part u : part_of (block_of u) u.
Proof.
  destruct (block_of_spec u) as [(i & j & _ & _ & _ & ->) | [_ ->]];
    [|apply part_of_refl].
  exists (take i u), (drop (j - i + 1)%nat (drop i u)).
  by rewrite take_drop, take_drop.
Qed.

(** When the block is cut out, it runs from a [{] to a [}]. *)
Lemma block_of_cases u :
  (exists mid, block_of u = lbrace_char :: mid ++ [rbrace_char])
  \/ (block_of u = u
      /\ forall i j, (i < j)%nat -> u !! i = Some lbrace_char ->
                     u !! j <> Some rbrace_char).
Proof.
  destruct (block_of_spec u)
    as [(i & j & [Hi _] & [Hj _] & Hij & ->) | [Hnone ->]].
  - left. by apply between_ends.
  - right. split; [done|]. intros i j Hij Hi Hj.
    destruct (find_char_spec u lbrace_char) as [[_ Hnot] | (i0 & _ & Hi0)].
    { destruct Hnot. by eapply list_elem_of_lookup_2. }
    destruct (rfind_char_spec u rbrace_char) as [[_ Hnot] | (j0 & _ & Hj0)].
    { destruct Hnot. by eapply list_elem_of_lookup_2. }
    apply (Hnone i0 j0 Hi0 Hj0).
    destruct Hi0 as [_ Hbefore]. destruct Hj0 as [_ Hafter].
    destruct (decide (i < i0)%nat) as [H|H]; [by destruct (Hbefore i H)|].
    destruct (decide (j0 < j)%nat) as [H'|H']; [by destruct (Hafter j H')|].
    lia.
Qed.

Lemma unfence_no_outer_space text :
  no_outer_space text -> no_outer_space (unfence text).
Proof.
  intros H. unfold unfence. destruct (startswith text fence); [|done].
  apply strip_no_outer_space.
Qed.

Lemma block_of_no_outer_space u : no_outer_space u -> no_outer_space (block_of u).
Proof.
  intros Hu. destruct (block_of_cases u) as [[mid ->] | [-> _]]; [|done].
  split.
  - by intros c t [= <- _].
  - intros c t Ht. rewrite app_comm_cons in Ht.
    apply app_inj_tail in Ht as [_ <-]. done.
Qed.

Lemma rfind_snoc (s : str) c : rfind (s ++ [c]) [c] = Z.of_nat (length s).
Proof.
  destruct (rfind_char_spec (s ++ [c]) c) as [[_ Hnot] | (i & -> & Hi & Hafter)].
  { destruct Hnot. apply elem_of_app. right. by apply list_elem_of_singleton. }
  pose proof (lookup_lt_Some _ _ _ Hi) as Hlt. rewrite length_app in Hlt.
  simpl in Hlt. destruct (decide (i < length s)%nat) as [H|H]; [|f_equal; lia].
  destruct (Hafter (length s) H). by apply list_lookup_middle.
Qed.

Lemma slice_whole (u : str) hi : Z.of_nat (length u) <= hi -> slice u 0 hi = u.
Proof.
  intros Hhi. unfold slice, bound. change (0 <? 0) with false. cbv iota.
  rewrite (Z.min_l 0) by lia.
  destruct (Z.ltb_spec hi 0) as [H|H]; [exfalso; lia|].
  rewrite (Z.min_r hi) by lia. rewrite Nat2Z.id. change (Z.to_nat 0) with 0%nat.
  rewrite Nat.sub_0_r. simpl. by apply take_ge.
Qed.

(** Cutting the block out of a block changes nothing. *)
Lemma block_of_idempotent u : block_of (block_of u) = block_of u.
Proof.
  destruct (block_of_cases u) as [[mid ->] | [Hu _]]; [|by rewrite !Hu].
  unfold block_of.
  change (find (lbrace_char :: mid ++ [rbrace_char]) lbrace)
    with (find (lbrace_char :: mid ++ [rbrace_char]) [lbrace_char]).
  change (rfind (lbrace_char :: mid ++ [rbrace_char]) rbrace)
    with (rfind ((lbrace_char :: mid) ++ [rbrace_char]) [rbrace_char]).
  rewrite find_cons, bool_decide_eq_true_2 by done. rewrite rfind_snoc.
  cbn [length].
  destruct (Z.eqb_spec (Z.of_nat (S (length mid))) (-1)) as [E|_];
    [exfalso; lia|].
  destruct (Z.gtb_spec (Z.of_nat (S (length mid))) 0) as [_|E];
    [|exfalso; lia].
  cbn [negb andb Z.eqb]. apply slice_whole.
  simpl. rewrite length_app. simpl. lia.
Qed.

Lemma extract_no_outer_space_aux (raw : str) :
  no_outer_space (_extract_json_block raw).
Proof.
  rewrite extract_stages.
  apply block_of_no_outer_space, unfence_no_outer_space, strip_no_outer_space.
Qed.

(** X1: the extractor only cuts: what it returns is a contiguous part of
    its input, never text of its own. *)
Theorem extract_part_of_input (raw : str) : part_of (_extract_json_block raw) raw.
Proof.
  rewrite extract_stages.
  eapply part_of_trans; [apply block_of_part|].
  eapply part_of_trans; [apply unfence_part|].
  apply trimmed_part, strip_trimmed.
Qed.

(** X2: the extractor returns either a block that opens with [{] and closes
    with [}], or a text in which no [{] is followed by a [}]. *)
Theorem extract_block_or_no_pair (raw : str) :
  (exists mid, _extract_json_block raw = lbrace_char :: mid ++ [rbrace_char])
  \/ (forall i j, (i < j)%nat ->
         _extract_json_block raw !! i = Some lbrace_char ->
         _extract_json_block raw !! j <> Some rbrace_char).
Proof.
  rewrite extract_stages.
  destruct (block_of_cases (unfence (strip raw))) as [H | [-> H]];
    [by left | by right].
Qed.

(** X3: the text the extractor returns neither begins nor ends with
    whitespace. *)
Theorem extract_no_outer_space (raw : str) :
  (forall c t, _extract_json_block raw = c :: t -> is_space c = false)
  /\ (forall c t, _extract_json_block raw = t ++ [c] -> is_space c = false).
Proof. exact (extract_no_outer_space_aux raw). Qed.

(** X4: whitespace around the input does not change what is extracted; in
    particular an input of whitespace alone gives the empty string. *)
Theorem extract_ignores_outer_space (l raw r : str) :
  all_space l -> all_space r ->
  _extract_json_block (l ++ raw ++ r) = _extract_json_block raw.
Proof.
  intros Hl Hr. rewrite !extract_stages. by rewrite strip_outer.
Qed.

(** X5: extracting twice is extracting once, as long as the first result
    does not itself begin with a fence marker. *)
Theorem extract_idempotent (raw : str) :
  ~ (fence `prefix_of` _extract_json_block raw) ->
  _extract_json_block (_extract_json_block raw) = _extract_json_block raw.
Proof.
  intros Hfence.
  rewrite (extract_stages (_extract_json_block raw)).
  rewrite (strip_fixed _ (extract_no_outer_space_aux raw)).
  unfold unfence at 1.
  destruct (startswith (_extract_json_block raw) fence) eqn:E.
  { by apply bool_decide_eq_true in E. }
  rewrite extract_stages. apply block_of_idempotent.
Qed.

End ExtractorStages.

Section ExtractorStagesExamples.
Import Navigator Examples.

(** X4, at a response padded with a blank and a line break. *)
Lemma extract_ignores_outer_space_witness :
  _extract_json_block (py " " ++ py "{}" ++ newline) = _extract_json_block "{}".
Proof.
  apply extract_ignores_outer_space; repeat constructor.
Defined.

(** X5, at a response wrapped in prose. *)
Lemma extract_idempotent_witness :
  _extract_json_block (_extract_json_block "Here: {} Done.")
  = _extract_json_block "Here: {} Done.".
Proof.
  apply extract_idempotent.
  refine (proj1 (bool_decide_eq_false _) _). vm_compute. reflexivity.
Defined.

(** A second extraction can still cut when the first result begins with a
    fence: a fenced text whose body is fenced again. *)
Example extract_twice_cuts_again :
  _extract_json_block (py "```" ++ newline ++ py "```a" ++ newline ++ py "b")
  = py "```a" ++ newline ++ py "b"
  /\ _extract_json_block (py "```a" ++ newline ++ py "b") = py "b".
Proof. split; vm_compute; reflexivity. Qed.

End ExtractorStagesExamples.

(** ** The plan pipeline on the remaining responses *)

Section PlanMore.
Import Navigator.

Variable call_llm : str -> result (option str).
Variable json_loads : str -> result value.

(** X6: when the response's candidate block fails to parse, or parses to
    anything but a mapping (a list, a string, a number), the default plan is
    returned. *)
Theorem plan_malformed_default requirements project_type raw :
  call_llm (planning_prompt requirements project_type) = Ok (Some raw) ->
  ((exists exc, json_loads (_extract_json_block raw) = Raise exc)
   \/ (exists v, json_loads (_extract_json_block raw) = Ok v /\ is_dict v = false)) ->
  plan_code_generation call_llm json_loads requirements project_type
  = Ok [ (py "components",
           VList [ VDict [ (py "name", VStr "main_module");
                           (py "description", VStr requirements);
                           (py "priority", VInt 1) ] ]);
         (py "search_queries", VList [ VStr requirements ]) ].
Proof.
  intros Hcall Hbad.
  apply (plan_without_mapping call_llm json_loads).
  intros raw' d (Hcall' & _ & Hloads).
  assert (raw' = raw) as -> by congruence.
  destruct Hbad as [[exc H] | (v & H & Hv)]; [congruence|].
  assert (v = VDict d) as -> by congruence. discriminate.
Qed.

(** X7: when the response parses to a mapping whose [components] and
    [search_queries] are both non-empty lists, the plan consists of exactly
    these two lists; whatever else the mapping holds is dropped. *)
Theorem plan_full_adoption requirements project_type raw d c cs q qs :
  parsed_mapping call_llm json_loads requirements project_type raw d ->
  dict_get d "components" = Some (VList (c :: cs)) ->
  dict_get d "search_queries" = Some (VList (q :: qs)) ->
  plan_code_generation call_llm json_loads requirements project_type
  = Ok [ (py "components", VList (c :: cs));
         (py "search_queries", VList (q :: qs)) ].
Proof.
  intros Hmap Hc Hq.
  rewrite (plan_of_mapping call_llm json_loads _ _ _ _ Hmap), Hc, Hq.
  reflexivity.
Qed.

(** X8: whitespace around a non-empty response does not change the plan:
    two collaborators whose answers differ only in it yield the same plan. *)
Theorem plan_ignores_outer_space
    (call_llm' : str -> result (option str)) requirements project_type raw l r :
  raw <> [] -> all_space l -> all_space r ->
  call_llm (planning_prompt requirements project_type) = Ok (Some raw) ->
  call_llm' (planning_prompt requirements project_type)
  = Ok (Some (l ++ raw ++ r)) ->
  plan_code_generation call_llm' json_loads requirements project_type
  = plan_code_generation call_llm json_loads requirements project_type.
Proof.
  intros Hne Hl Hr Hcall Hcall'. unfold plan_code_generation.
  rewrite Hcall, Hcall'. simpl.
  assert (Hraw : nonempty raw = true) by (by destruct raw).
  assert (Hpad : nonempty (l ++ raw ++ r) = true).
  { destruct l; simpl; [|done]. by destruct raw. }
  rewrite Hraw, Hpad. simpl. rewrite Hraw, Hpad. simpl.
  rewrite !extract_stages. by rewrite strip_outer.
Qed.

End PlanMore.

Section PlanMoreExamples.
Import Navigator Examples.

(** X6, at a response that is a JSON list. *)
Lemma plan_malformed_default_witness :
  plan_code_generation (llm_says "[1, 2]") Json.json_loads "parse logs" "cli"
  = Ok [ (py "components",
           VList [ VDict [ (py "name", VStr "main_module");
                           (py "description", VStr "parse logs");
                           (py "priority", VInt 1) ] ]);
         (py "search_queries", VList [ VStr "parse logs" ]) ].
Proof.
  apply (plan_malformed_default (llm_says "[1, 2]") Json.json_loads
           "parse logs" "cli" "[1, 2]").
  - reflexivity.
  - right. exists (VList [VInt 1; VInt 2]). split; vm_compute; reflexivity.
Defined.

(** X7, at a response with a component, a query and a stray key. *)
Lemma plan_full_adoption_witness :
  plan_code_generation (llm_says full_plan) Json.json_loads "parse logs" "cli"
  = Ok [ (py "components",
           VList [ VDict [ (py "name", VStr "cli");
                           (py "description", VStr "entry point");
                           (py "priority", VInt 2) ] ]);
         (py "search_queries", VList [ VStr "argparse" ]) ].
Proof.
  apply (plan_full_adoption (llm_says full_plan) Json.json_loads
           "parse logs" "cli" full_plan
           [ (py "components",
               VList [ VDict [ (py "name", VStr "cli");
                               (py "description", VStr "entry point");
                               (py "priority", VInt 2) ] ]);
             (py "search_queries", VList [ VStr "argparse" ]);
             (py "notes", VInt 7) ]).
  - split; [reflexivity|]. split; [discriminate|]. vm_compute. reflexivity.
  - vm_compute. reflexivity.
  - vm_compute. reflexivity.
Defined.

(** X8, at a response padded with a blank and a line break. *)
Lemma plan_ignores_outer_space_witness :
  plan_code_generation (llm_says (py " " ++ full_plan ++ newline))
                       Json.json_loads "parse logs" "cli"
  = plan_code_generation (llm_says full_plan) Json.json_loads "parse logs" "cli".
Proof.
  apply (plan_ignores_outer_space (llm_says full_plan) Json.json_loads
           (llm_says (py " " ++ full_plan ++ newline))
           "parse logs" "cli" full_plan (py " ") newline).
  - discriminate.
  - repeat constructor.
  - repeat constructor.
  - reflexivity.
  - reflexivity.
Defined.

End PlanMoreExamples.

(** ** The exemplar selector: bounds, order and errors *)

Section SearchMore.
Import Search.

Variable deep_search : str -> list value -> result value.

Lemma filter_sublist {A} (f : A -> bool) (l : list A) : List.filter f l `sublist_of` l.
Proof.
  induction l as [|x l IH]; simpl; [constructor|].
  destruct (f x); by constructor.
Qed.

Lemma filter_in_bounds n (l : list Z) :
  Forall (fun k => 0 <= k < Z.of_nat n) (List.filter (in_bounds n) l).
Proof.
  induction l as [|k l IH]; simpl; [constructor|].
  destruct (in_bounds n k) eqn:E; [|done].
  constructor; [by apply in_bounds_spec | done].
Qed.

Lemma in_bounds_false n k : in_bounds n k = false -> k < 0 \/ Z.of_nat n <= k.
Proof.
  intros H. destruct (decide (0 <= k < Z.of_nat n)) as [Hin|Hout]; [|lia].
  apply in_bounds_spec in Hin. congruence.
Qed.

(** At most four neighbors, and fewer than there are sections. *)
Lemma neighbors_count n i :
  in_bounds n i = true ->
  let ks := List.filter (in_bounds n) [i - 1; i + 1; i - 2; i + 2] in
  (length ks <= 4)%nat /\ (length ks < n)%nat.
Proof.
  intros Hi. apply in_bounds_spec in Hi. simpl.
  destruct (in_bounds n (i - 1)) eqn:E1;
    [apply in_bounds_spec in E1 | apply in_bounds_false in E1];
    (destruct (in_bounds n (i + 1)) eqn:E2;
     [apply in_bounds_spec in E2 | apply in_bounds_false in E2]);
    (destruct (in_bounds n (i - 2)) eqn:E3;
     [apply in_bounds_spec in E3 | apply in_bounds_false in E3]);
    (destruct (in_bounds n (i + 2)) eqn:E4;
     [apply in_bounds_spec in E4 | apply in_bounds_false in E4]);
    simpl; lia.
Qed.

Lemma neighbors_distinct (i : Z) : NoDup [i; i - 1; i + 1; i - 2; i + 2].
Proof.
  repeat (apply NoDup_cons_2;
          [intros H; repeat (apply elem_of_cons in H as [H|H]; [lia|]);
           by apply elem_of_nil in H|]).
  apply NoDup_nil_2.
Qed.

Lemma exemplar_at_unique code_sections k ex1 ex2 :
  exemplar_at code_sections k ex1 -> exemplar_at code_sections k ex2 -> ex1 = ex2.
Proof. intros (d1 & H1 & ->) (d2 & H2 & ->). congruence. Qed.

(** The selection, with the index it settled on known to be in bounds. *)
Lemma select_spec_bounds requirement code_sections max_exemplars res :
  code_sections <> [] ->
  sections_typed code_sections ->
  deep_search requirement code_sections = Ok res ->
  exists v d neighbors,
    chosen_index code_sections res = Ok v
    /\ in_bounds (length code_sections) (int_value v) = true
    /\ code_sections !! Z.to_nat (int_value v) = Some (VDict d)
    /\ find_function_exemplars deep_search requirement code_sections max_exemplars
       = Ok (exemplar_of v d :: neighbors)
    /\ Forall2 (exemplar_at code_sections)
         (take (Z.to_nat (max_exemplars - 1))
               (List.filter (in_bounds (length code_sections))
                  [int_value v - 1; int_value v + 1;
                   int_value v - 2; int_value v + 2]))
         neighbors.
Proof.
  intros Hne Htyped Hrank.
  destruct (select_spec deep_search requirement code_sections max_exemplars
              res Hne Htyped Hrank) as (v & d & nbs & Hv & Hd & Hsel & Hnb).
  destruct (chosen_index_spec code_sections res Hne) as (v' & Hv' & Hin & _).
  assert (v' = v) as -> by congruence.
  exists v, d, nbs. done.
Qed.

(** X9: on typed non-empty sections the selector returns between one and
    five exemplars, never more than there are sections, and never more than
    [max_exemplars] unless that is below one. *)
Theorem select_length_bounds requirement code_sections max_exemplars res :
  code_sections <> [] ->
  sections_typed code_sections ->
  deep_search requirement code_sections = Ok res ->
  exists exemplars,
    find_function_exemplars deep_search requirement code_sections max_exemplars
    = Ok exemplars
    /\ (1 <= length exemplars <= 5)%nat
    /\ (length exemplars <= length code_sections)%nat
    /\ Z.of_nat (length exemplars) <= Z.max 1 max_exemplars.
Proof.
  intros Hne Htyped Hrank.
  destruct (select_spec_bounds requirement code_sections max_exemplars
              res Hne Htyped Hrank) as (v & d & nbs & _ & Hin & _ & -> & Hnb).
  eexists. split; [done|].
  apply Forall2_length in Hnb. rewrite length_take in Hnb.
  destruct (neighbors_count _ _ Hin) as [H4 Hn]. simpl. lia.
Qed.

(** X10: the exemplars come from pairwise distinct source indices, all in
    bounds: no section is returned twice. *)
Theorem select_indices_distinct requirement code_sections max_exemplars res :
  code_sections <> [] ->
  sections_typed code_sections ->
  deep_search requirement code_sections = Ok res ->
  exists v d ks neighbors,
    find_function_exemplars deep_search requirement code_sections max_exemplars
    = Ok (exemplar_of v d :: neighbors)
    /\ code_sections !! Z.to_nat (int_value v) = Some (VDict d)
    /\ Forall2 (exemplar_at code_sections) ks neighbors
    /\ NoDup (int_value v :: ks)
    /\ Forall (fun k => 0 <= k < Z.of_nat (length code_sections))
              (int_value v :: ks).
Proof.
  intros Hne Htyped Hrank.
  destruct (select_spec_bounds requirement code_sections max_exemplars
              res Hne Htyped Hrank) as (v & d & nbs & _ & Hin & Hd & Hsel & Hnb).
  eexists v, d, _, nbs. split; [done|]. split; [done|]. split; [exact Hnb|].
  split.
  - refine (sublist_NoDup _ _ (neighbors_distinct (int_value v)) _).
    apply sublist_skip. etrans; [apply sublist_take | apply filter_sublist].
  - constructor; [by apply in_bounds_spec|].
    apply Forall_take, filter_in_bounds.
Qed.

(** X11: raising [max_exemplars] only appends: the selection under a limit
    is a prefix of the selection under any larger limit. *)
Theorem select_monotone requirement code_sections m m' res :
  code_sections <> [] ->
  sections_typed code_sections ->
  deep_search requirement code_sections = Ok res ->
  m <= m' ->
  exists fewer more,
    find_function_exemplars deep_search requirement code_sections m = Ok fewer
    /\ find_function_exemplars deep_search requirement code_sections m' = Ok more
    /\ fewer `prefix_of` more.
Proof.
  intros Hne Htyped Hrank Hle.
  destruct (select_spec_bounds requirement code_sections m
              res Hne Htyped Hrank) as (v & d & nbs & Hv & _ & Hd & -> & Hnb).
  destruct (select_spec_bounds requirement code_sections m'
              res Hne Htyped Hrank) as (v' & d' & nbs' & Hv' & _ & Hd' & -> & Hnb').
  assert (v' = v) as -> by congruence.
  assert (d' = d) as -> by congruence.
  do 2 eexists. split; [done|]. split; [done|].
  apply prefix_cons.
  assert (nbs = take (Z.to_nat (m - 1)) nbs') as ->; [|apply prefix_take].
  eapply Forall2_unique; [exact Hnb| |apply exemplar_at_unique].
  apply (Forall2_take _ _ _ (Z.to_nat (m - 1))) in Hnb'.
  rewrite take_take in Hnb'.
  replace (Z.to_nat (m - 1) `min` Z.to_nat (m' - 1))%nat
    with (Z.to_nat (m - 1)) in Hnb' by lia.
  exact Hnb'.
Qed.

(** X12: a boolean [chosen_section_index] passes the integer check: [True]
    selects the section at 1 and [False] the section at 0, and the primary
    exemplar carries the boolean itself as its [index]. *)
Theorem select_boolean_index requirement code_sections max_exemplars d b :
  sections_typed code_sections ->
  deep_search requirement code_sections = Ok (VDict d) ->
  dict_get d "chosen_section_index" = Some (VBool b) ->
  ((if b then 1 else 0) < length code_sections)%nat ->
  exists section neighbors,
    code_sections !! (if b then 1 else 0)%nat = Some (VDict section)
    /\ find_function_exemplars deep_search requirement code_sections max_exemplars
       = Ok (exemplar_of (VBool b) section :: neighbors).
Proof.
  intros Htyped Hrank Hidx Hlen.
  assert (Hne : code_sections <> []).
  { intros ->. simpl in Hlen. lia. }
  destruct (select_spec_bounds requirement code_sections max_exemplars
              _ Hne Htyped Hrank) as (v & d0 & nbs & Hv & _ & Hd0 & Hsel & _).
  assert (v = VBool b) as ->.
  { unfold chosen_index in Hv. simpl in Hv. rewrite Hidx in Hv. simpl in Hv.
    assert (Hin : (0 <=? (if b then 1 else 0))
                  && ((if b then 1 else 0) <? Z.of_nat (length code_sections))
                  = true).
    { apply andb_true_iff. rewrite Z.leb_le, Z.ltb_lt. destruct b; lia. }
    rewrite Hin in Hv. by inversion Hv. }
  exists d0, nbs. split; [|done].
  rewrite <- Hd0. by destruct b.
Qed.

(** X13: the ranking collaborator is called outside any handler: on a
    non-empty section list, what it raises reaches the caller unchanged. *)
Theorem select_ranking_error requirement code_sections max_exemplars exc :
  code_sections <> [] ->
  deep_search requirement code_sections = Raise exc ->
  find_function_exemplars deep_search requirement code_sections max_exemplars
  = Raise exc.
Proof.
  intros Hne Hrank. unfold find_function_exemplars.
  destruct code_sections; [done|]. simpl negb. cbv iota. by rewrite Hrank.
Qed.

(** X14: when the section at the index the selector settles on is no
    mapping, the call raises [AttributeError]. *)
Theorem select_untyped_section requirement code_sections max_exemplars res v entry :
  deep_search requirement code_sections = Ok res ->
  chosen_index code_sections res = Ok v ->
  code_sections !! Z.to_nat (int_value v) = Some entry ->
  is_dict entry = false ->
  find_function_exemplars deep_search requirement code_sections max_exemplars
  = Raise AttributeError.
Proof.
  intros Hrank Hv Hentry Hnd.
  assert (Hne : code_sections <> []) by (by intros ->).
  destruct (chosen_index_spec code_sections res Hne) as (v' & Hv' & Hin & _).
  assert (v' = v) as -> by congruence.
  unfold find_function_exemplars.
  destruct code_sections as [|s0 rest] eqn:Hcs; [done|]. rewrite <- Hcs in *.
  simpl negb. cbv iota. rewrite Hrank. cbn [mbind result_bind].
  rewrite Hv. cbn [mbind result_bind].
  assert (Hbuild : _build_exemplar code_sections v = Raise AttributeError).
  { unfold _build_exemplar, list_index.
    pose proof Hin as Hb. apply in_bounds_spec in Hb.
    destruct (Z.ltb_spec (int_value v) 0) as [H|_]; [exfalso; lia|].
    unfold in_bounds in Hin. rewrite Hin, Hentry. simpl.
    destruct entry; try discriminate; reflexivity. }
  rewrite Hbuild, Hcs. reflexivity.
Qed.

End SearchMore.

Section SearchMoreExamples.
Import Search Examples.

(** X9, at five sections and a limit of 10. *)
Lemma select_length_bounds_witness :
  exists exemplars,
    find_function_exemplars (rank_says (chooses 2)) "parse logs" five_sections 10
    = Ok exemplars
    /\ (1 <= length exemplars <= 5)%nat
    /\ (length exemplars <= length five_sections)%nat
    /\ Z.of_nat (length exemplars) <= Z.max 1 10.
Proof.
  apply (select_length_bounds (rank_says (chooses 2)) "parse logs" five_sections
           10 (chooses 2)).
  - discriminate.
  - repeat constructor.
  - reflexivity.
Defined.

(** X10, at five sections and a limit of 10. *)
Lemma select_indices_distinct_witness :
  exists v d ks neighbors,
    find_function_exemplars (rank_says (chooses 0)) "parse logs" five_sections 10
    = Ok (exemplar_of v d :: neighbors)
    /\ five_sections !! Z.to_nat (int_value v) = Some (VDict d)
    /\ Forall2 (exemplar_at five_sections) ks neighbors
    /\ NoDup (int_value v :: ks)
    /\ Forall (fun k => 0 <= k < Z.of_nat (length five_sections))
              (int_value v :: ks).
Proof.
  apply (select_indices_distinct (rank_says (chooses 0)) "parse logs"
           five_sections 10 (chooses 0)).
  - discriminate.
  - repeat constructor.
  - reflexivity.
Defined.

(** X11, at the limits 1 and 3. *)
Lemma select_monotone_witness :
  exists fewer more,
    find_function_exemplars (rank_says (chooses 2)) "parse logs" five_sections 1
    = Ok fewer
    /\ find_function_exemplars (rank_says (chooses 2)) "parse logs" five_sections 3
       = Ok more
    /\ fewer `prefix_of` more.
Proof.
  apply (select_monotone (rank_says (chooses 2)) "parse logs" five_sections
           1 3 (chooses 2)).
  - discriminate.
  - repeat constructor.
  - reflexivity.
  - lia.
Defined.

(** X12, at the answer [{"chosen_section_index": true}]. *)
Lemma select_boolean_index_witness :
  exists section neighbors,
    five_sections !! 1%nat = Some (VDict section)
    /\ find_function_exemplars
         (rank_says (VDict [ (py "chosen_section_index", VBool true) ]))
         "parse logs" five_sections 1
       = Ok (exemplar_of (VBool true) section :: neighbors).
Proof.
  apply (select_boolean_index
           (rank_says (VDict [ (py "chosen_section_index", VBool true) ]))
           "parse logs" five_sections 1
           [ (py "chosen_section_index", VBool true) ] true).
  - repeat constructor.
  - reflexivity.
  - reflexivity.
  - simpl. lia.
Defined.

(** X13, at a ranking collaborator that times out. *)
Lemma select_ranking_error_witness :
  find_function_exemplars (fun requirement code_sections => Raise (Exc "Timeout"))
    "parse logs" five_sections 3
  = Raise (Exc "Timeout").
Proof.
  apply select_ranking_error; [discriminate | reflexivity].
Defined.

(** X14, at a section list whose first entry is a string. *)
Lemma select_untyped_section_witness :
  find_function_exemplars (rank_says VNone) "parse logs"
    [ VStr "def f(): pass"; section "b" ] 3
  = Raise AttributeError.
Proof.
  apply (select_untyped_section (rank_says VNone) "parse logs"
           [ VStr "def f(): pass"; section "b" ] 3 VNone (VInt 0)
           (VStr "def f(): pass")); reflexivity.
Defined.

End SearchMoreExamples.

(** ** The documentation pipeline and its exemplars *)

Section DocMore.
Import Navigator Doc.

Variable call_llm : str -> result (option str).
Variable json_loads : str -> result value.
Variable json_dumps : value -> result str.
Variable py_str : value -> str.

Lemma slice_to_three {A} (l : list A) : slice_to l 3 = take 3 l.
Proof.
  unfold slice_to, bound. change (3 <? 0) with false. cbv iota.
  destruct (decide (3 <= length l)%nat) as [H|H].
  - by rewrite Z.min_l by lia.
  - rewrite Z.min_r by lia. rewrite Nat2Z.id.
    rewrite !take_ge by lia. done.
Qed.

Lemma render_cons (ex : value) (exs : list value) :
  mapM (render_exemplar py_str) (ex :: exs)
  = render_exemplar py_str ex ≫= fun text =>
    mapM (render_exemplar py_str) exs ≫= fun texts => mret (text :: texts).
Proof. reflexivity. Qed.

Lemma render_raises (exs : list value) :
  Exists (fun ex => is_dict ex = false) exs ->
  mapM (render_exemplar py_str) exs = Raise AttributeError.
Proof.
  induction exs as [|ex exs IH]; intros Hex; [by inversion Hex|].
  rewrite render_cons. destruct (is_dict ex) eqn:Hd.
  - destruct ex; try discriminate.
    destruct (render_exemplar_mapping py_str d) as [text ->].
    inversion Hex as [? ? Hhead | ? ? Htail]; subst; [discriminate|].
    cbn [mbind result_bind]. by rewrite (IH Htail).
  - destruct ex; try discriminate; reflexivity.
Qed.

(** X15: only the first three exemplars count: passing more of them gives
    the same result as passing the first three alone. *)
Theorem document_first_three_exemplars
    requirement project_type code (exemplars : list value) tribal_kb :
  generate_documentation call_llm json_loads json_dumps py_str
    requirement project_type code (Some exemplars) tribal_kb
  = generate_documentation call_llm json_loads json_dumps py_str
      requirement project_type code (Some (take 3 exemplars)) tribal_kb.
Proof.
  unfold generate_documentation, build_prompt. cbn [from_option id].
  rewrite !slice_to_three, take_take.
  assert (nonempty (take 3 exemplars) = nonempty exemplars) as ->
    by (by destruct exemplars).
  reflexivity.
Qed.

(** X16: when one of the first three exemplars is no mapping, the call
    raises [AttributeError] before the collaborator is reached, whatever the
    collaborator would do. *)
Theorem document_untyped_exemplar
    requirement project_type code (exemplars : list value) tribal_kb :
  Exists (fun ex => is_dict ex = false) (take 3 exemplars) ->
  generate_documentation call_llm json_loads json_dumps py_str
    requirement project_type code (Some exemplars) tribal_kb
  = Raise AttributeError.
Proof.
  intros Hex. unfold generate_documentation, build_prompt.
  cbn [from_option id].
  assert (nonempty exemplars = true) as ->.
  { destruct exemplars; [|done]. by inversion Hex. }
  rewrite slice_to_three, (render_raises _ Hex). reflexivity.
Qed.

End DocMore.

Section DocMoreExamples.
Import Doc Examples.

(** X16, at a list of exemplars that are strings. *)
Lemma document_untyped_exemplar_witness :
  generate_documentation llm_down Json.json_loads no_dumps no_str
    "parse logs" "cli" "" (Some [ section "a"; VStr "def f(): pass" ]) None
  = Raise AttributeError.
Proof.
  apply document_untyped_exemplar.
  apply Exists_cons_tl, Exists_cons_hd. reflexivity.
Defined.

End DocMoreExamples.
